(** * OAuth2/PKCE front end: the callback handler and the access guard

    A shallow embedding of the three request handlers of the repository
    that carry the authentication flow:

    - [MiddlewareA.middleware]: [src/middleware.ts], the guard that the
      framework calls for the paths selected by [config.matcher];
    - [MiddlewareB.middleware]: the second [middleware.ts], which tests the
      path prefix itself before it does anything else;
    - [Callback.GET]: the route handler that exchanges the authorization
      code for a token bundle.

    JavaScript values are modelled as far as the handlers look at them:
    JSON values, [undefined] (as [None]), truthiness, string conversion and
    property reads.  The identity provider, the JSON codec and the process
    environment are fields of a [Runtime] record; every call that leaves the
    handler is recorded in a trace of [Event]s.  Console output is not
    modelled. *)

From Stdlib Require Import String Ascii List ZArith Bool Lia DecimalString.
Import ListNotations.
Open Scope string_scope.
Local Set Warnings "-register-all".

(** ** JavaScript values *)

(** A JSON value, as [JSON.parse] and axios hand it to the handlers.  Numbers
    are the integers (token lifetimes are whole seconds). *)
Inductive json : Type :=
| JNull
| JBool (b : bool)
| JNum (n : Z)
| JStr (s : string)
| JArr (items : list json)
| JObj (fields : list (string * json)).

(** A value that may be [undefined]. *)
Definition jsval : Type := option json.
Definition undefined : jsval := None.

Fixpoint assoc {A : Type} (k : string) (l : list (string * A)) : option A :=
  match l with
  | [] => None
  | (k', v) :: rest => if String.eqb k k' then Some v else assoc k rest
  end.

(** [!!v]: every value is truthy except [undefined], [null], [false], [0]
    and the empty string. *)
Definition truthy (v : jsval) : bool :=
  match v with
  | None => false
  | Some JNull => false
  | Some (JBool b) => b
  | Some (JNum n) => negb (n =? 0)%Z
  | Some (JStr s) => negb (String.eqb s EmptyString)
  | Some (JArr _) => true
  | Some (JObj _) => true
  end.

(** Truthiness of a [string | undefined] (a cookie value) or a
    [string | null] (a query parameter). *)
Definition truthy_str (s : option string) : bool :=
  match s with
  | None => false
  | Some s => negb (String.eqb s EmptyString)
  end.

(** [a || b] on values. *)
Definition js_or (a b : jsval) : jsval := if truthy a then a else b.

(** [a ?? b] on an optional string. *)
Definition nullish (a : option string) (b : string) : string :=
  match a with Some s => s | None => b end.

(** [String(v)], the conversion a template literal and
    [URLSearchParams.append] apply. *)
Fixpoint js_String_json (v : json) : string :=
  match v with
  | JNull => "null"
  | JBool true => "true"
  | JBool false => "false"
  | JNum n => NilZero.string_of_int (Z.to_int n)
  | JStr s => s
  | JArr items =>
      String.concat ","
        (map (fun i => match i with JNull => EmptyString | _ => js_String_json i end)
             items)
  | JObj _ => "[object Object]"
  end.

Definition js_String (v : jsval) : string :=
  match v with
  | None => "undefined"
  | Some j => js_String_json j
  end.

(** A template literal piece [${s}] for an environment variable. *)
Definition interpolate (s : option string) : string :=
  match s with Some s => s | None => "undefined" end.

(** [v?.key] for the keys the handlers read ([access_token],
    [refresh_token], [expires_in]): only an object has them. *)
Definition optional_member (v : json) (key : string) : jsval :=
  match v with
  | JObj fields => assoc key fields
  | _ => undefined
  end.

(** [v.key], and the destructuring [const { key } = v]: as [v?.key], but
    [null] raises a [TypeError] ([None] here). *)
Definition member (v : json) (key : string) : option jsval :=
  match v with
  | JNull => None
  | _ => Some (optional_member v key)
  end.

(** ** Exceptions, the provider and the runtime *)

(** What a [catch] clause can receive. *)
Inductive Thrown : Type :=
| AxiosError (message : string) (code : option string)
             (response : option (Z * json))
| JsError (name message : string) (stack : option string)
| NonError (shown : string).

Definition isAxiosError (e : Thrown) : bool :=
  match e with AxiosError _ _ _ => true | _ => false end.

(** [error.response?.status] of an axios error. *)
Definition response_status (response : option (Z * json)) : option Z :=
  option_map fst response.

(** [status === n]. *)
Definition status_is (status : option Z) (n : Z) : bool :=
  match status with Some s => (s =? n)%Z | None => false end.

(** How an awaited axios call ends: it resolves with the response data, or
    it rejects. *)
Inductive AxiosOutcome : Type :=
| Resolves (data : json)
| Rejects (e : Thrown).

Definition Headers : Type := list (string * string).
Definition URLSearchParams : Type := list (string * string).

Record ProcessEnv : Type := {
  NEXT_PUBLIC_API_URL : option string;
  NEXT_PUBLIC_OAUTH_CLIENT_ID : option string;
  NEXT_PUBLIC_OAUTH_TOKEN_URL : option string;
  NEXT_PUBLIC_OAUTH_REDIRECT_URI : option string;
  NEXT_PUBLIC_APP_URL : option string;
  NODE_ENV : option string
}.

(** Everything a handler uses and does not define. [JSON_parse] is [None]
    where [JSON.parse] raises; [redirect_raises s] is what
    [NextResponse.redirect(s)] throws on a string [s] that is not an
    absolute URL ([None]: it accepts [s]); [captured_stack] is the [stack]
    of an [Error] the handler creates; [provider_get] and [provider_post]
    answer the axios calls. *)
Record Runtime : Type := {
  JSON_parse : string -> option json;
  JSON_stringify : json -> string;
  redirect_raises : string -> option Thrown;
  captured_stack : option string;
  process_env : ProcessEnv;
  provider_get : string -> Headers -> AxiosOutcome;
  provider_post : string -> URLSearchParams -> Headers -> AxiosOutcome
}.

(** ** Effects: a trace of what the handler did *)

Inductive Event : Type :=
| CookieRead (name : string)
| HttpGet (url : string) (headers : Headers) (outcome : AxiosOutcome)
| HttpPost (url : string) (body : URLSearchParams) (headers : Headers)
           (outcome : AxiosOutcome).

Definition IO (A : Type) : Type := list Event * A.

Definition ret {A : Type} (a : A) : IO A := ([], a).

Definition bind {A B : Type} (m : IO A) (k : A -> IO B) : IO B :=
  let (t, a) := m in
  let (t', b) := k a in
  ((t ++ t')%list, b).

Notation "x <- m ;; k" := (bind m (fun x => k))
  (at level 61, m at next level, right associativity).

Definition trace {A : Type} (m : IO A) : list Event := fst m.
Definition result {A : Type} (m : IO A) : A := snd m.

Definition cookies_get (store : list (string * string)) (name : string)
  : IO (option string) :=
  ([CookieRead name], assoc name store).

Definition axios_get (rt : Runtime) (url : string) (headers : Headers)
  : IO AxiosOutcome :=
  let o := provider_get rt url headers in ([HttpGet url headers o], o).

Definition axios_post (rt : Runtime) (url : string) (body : URLSearchParams)
           (headers : Headers) : IO AxiosOutcome :=
  let o := provider_post rt url body headers in
  ([HttpPost url body headers o], o).

Definition is_network_call (e : Event) : bool :=
  match e with
  | CookieRead _ => false
  | HttpGet _ _ _ => true
  | HttpPost _ _ _ _ => true
  end.

Definition is_get (e : Event) : bool :=
  match e with HttpGet _ _ _ => true | _ => false end.

Definition is_post (e : Event) : bool :=
  match e with HttpPost _ _ _ _ => true | _ => false end.

Definition network_calls (t : list Event) : list Event :=
  filter is_network_call t.

(** ** Responses *)

Record CookieOptions : Type := {
  httpOnly : bool;
  secure : bool;
  sameSite : string;
  path : string;
  maxAge : jsval   (* [undefined]: the option is not given *)
}.

Inductive CookieOp : Type :=
| CookieSet (name value : string) (options : CookieOptions)
| CookieDelete (name : string).

(** The callback's error body. *)
Record OAuthErrorPayload : Type := {
  error : string;
  message : option string;
  code : option string;
  status : option Z;
  details : jsval;
  stack : option string;
  name : option string
}.

Inductive ResponseKind : Type :=
| Next                                   (* NextResponse.next() *)
| Redirect (location : string)           (* NextResponse.redirect(url), 307 *)
| Json (payload : OAuthErrorPayload) (http_status : Z).

Record NextResponse : Type := {
  kind : ResponseKind;
  cookies : list CookieOp
}.

Definition NextResponse_next : NextResponse :=
  {| kind := Next; cookies := [] |}.

Definition NextResponse_redirect (url : string) : NextResponse :=
  {| kind := Redirect url; cookies := [] |}.

Definition NextResponse_json (p : OAuthErrorPayload) (st : Z) : NextResponse :=
  {| kind := Json p st; cookies := [] |}.

(** [response.cookies.set(...)] and [response.cookies.delete(...)]. *)
Definition cookies_set (r : NextResponse) (n v : string) (o : CookieOptions)
  : NextResponse :=
  {| kind := kind r; cookies := (cookies r ++ [CookieSet n v o])%list |}.

Definition cookies_delete (r : NextResponse) (n : string) : NextResponse :=
  {| kind := kind r; cookies := (cookies r ++ [CookieDelete n])%list |}.

(** ** The request the middleware sees *)

Record NextRequest : Type := {
  origin : string;                        (* scheme and host of request.url *)
  pathname : string;                      (* request.nextUrl.pathname *)
  request_cookies : list (string * string)
}.

(** [new URL(target, request.url)] for an absolute path [target]. *)
Definition URL_on (target : string) (req : NextRequest) : string :=
  origin req ++ target.

Definition redirect_login (req : NextRequest) : NextResponse :=
  NextResponse_redirect (URL_on "/auth/login" req).

Definition redirect_forbidden (req : NextRequest) : NextResponse :=
  NextResponse_redirect (URL_on "/auth/forbidden" req).

(** The two provider endpoints of the middleware, and the form it posts:
    [`${process.env.NEXT_PUBLIC_API_URL}/api/user/show`],
    [`${process.env.NEXT_PUBLIC_API_URL}/oauth/token`]. *)
Definition validation_url (rt : Runtime) : string :=
  interpolate (NEXT_PUBLIC_API_URL (process_env rt)) ++ "/api/user/show".

Definition refresh_url (rt : Runtime) : string :=
  interpolate (NEXT_PUBLIC_API_URL (process_env rt)) ++ "/oauth/token".

Definition refresh_params (rt : Runtime) (refresh_token : jsval)
  : URLSearchParams :=
  [("grant_type", "refresh_token");
   ("refresh_token", js_String refresh_token);
   ("client_id",
    nullish (NEXT_PUBLIC_OAUTH_CLIENT_ID (process_env rt)) EmptyString)].

Definition form_headers : Headers :=
  [("Content-Type", "application/x-www-form-urlencoded")].

(** The options of the cookie the middleware writes on refresh. *)
Definition refreshed_cookie_options (rt : Runtime) (expires_in : jsval)
  : CookieOptions :=
  {| httpOnly := true;
     secure := match NODE_ENV (process_env rt) with
               | Some e => String.eqb e "production"
               | None => false
               end;
     sameSite := "lax";
     path := "/";
     maxAge := js_or expires_in (Some (JNum 3600)) |}.

(** ** The access guard, first implementation ([src/middleware.ts]) *)

Module MiddlewareA.

(** The [try] block that follows a 401: one POST to the token endpoint.
    [JSON.stringify(newTokens)] is evaluated before
    [newTokens.expires_in]; the latter raises on [null], and the
    [catch (refreshError)] clause turns every exception into the login
    redirect. *)
Definition refresh (rt : Runtime) (request : NextRequest)
           (refresh_token : jsval) : IO NextResponse :=
  let refreshParams := refresh_params rt refresh_token in
  o <- axios_post rt (refresh_url rt) refreshParams form_headers ;;
  match o with
  | Resolves newTokens =>
      let value := JSON_stringify rt newTokens in
      match member newTokens "expires_in" with
      | Some expires_in =>
          ret (cookies_set NextResponse_next "oauth_data" value
                 (refreshed_cookie_options rt expires_in))
      | None => ret (redirect_login request)
      end
  | Rejects refreshError => ret (redirect_login request)
  end.

(** The [catch (error)] clause of the validation call. *)
Definition on_validation_error (rt : Runtime) (request : NextRequest)
           (refresh_token : jsval) (error : Thrown) : IO NextResponse :=
  match error with
  | AxiosError _ _ response =>
      let status := response_status response in
      if status_is status 401 then refresh rt request refresh_token
      else if status_is status 403 then ret (redirect_forbidden request)
      else ret (redirect_login request)
  | _ => ret (redirect_login request)
  end.

Definition validation_headers (access_token : jsval) : Headers :=
  [("Authorization", "Bearer " ++ js_String access_token);
   ("Accept", "application/json")].

Definition validate (rt : Runtime) (request : NextRequest)
           (access_token refresh_token : jsval) : IO NextResponse :=
  o <- axios_get rt (validation_url rt) (validation_headers access_token) ;;
  match o with
  | Resolves _ => ret NextResponse_next
  | Rejects error => on_validation_error rt request refresh_token error
  end.

Definition middleware (rt : Runtime) (request : NextRequest)
  : IO NextResponse :=
  oauthCookie <- cookies_get (request_cookies request) "oauth_data" ;;
  if negb (truthy_str oauthCookie) then ret (redirect_login request)
  else
    match JSON_parse rt (nullish oauthCookie EmptyString) with
    | None => ret (redirect_login request)
    | Some oauthData =>
        let access_token := optional_member oauthData "access_token" in
        let refresh_token := optional_member oauthData "refresh_token" in
        if negb (truthy access_token) then ret (redirect_login request)
        else validate rt request access_token refresh_token
    end.

Definition config_matcher : list string := ["/dashboard/:path*"].

End MiddlewareA.

(** ** The access guard, second implementation (the other [middleware.ts]) *)

(** How a call of the second implementation ends: it has paths that reach
    the end of the function without a [return], and a destructuring outside
    every [try]. *)
Inductive Completion : Type :=
| Returns (r : NextResponse)
| ReturnsUndefined
| Uncaught (error_name : string).

Module MiddlewareB.

Definition protectedPaths : list string := ["/dashboard"].

Definition refresh (rt : Runtime) (request : NextRequest)
           (refresh_token : jsval) : IO Completion :=
  let refreshParams := refresh_params rt refresh_token in
  o <- axios_post rt (refresh_url rt) refreshParams form_headers ;;
  match o with
  | Resolves newTokens =>
      let value := JSON_stringify rt newTokens in
      match member newTokens "expires_in" with
      | Some expires_in =>
          ret (Returns (cookies_set NextResponse_next "oauth_data" value
                          (refreshed_cookie_options rt expires_in)))
      | None => ret (Returns (redirect_login request))
      end
  | Rejects refreshError => ret (Returns (redirect_login request))
  end.

(** The [catch (error)] clause: an axios error that is not a 401 leaves
    the [if] and the function without a [return]. *)
Definition on_validation_error (rt : Runtime) (request : NextRequest)
           (refresh_token : jsval) (error : Thrown) : IO Completion :=
  if isAxiosError error then
    match error with
    | AxiosError _ _ response =>
        if status_is (response_status response) 401
        then refresh rt request refresh_token
        else ret ReturnsUndefined
    | _ => ret ReturnsUndefined
    end
  else ret (Returns (redirect_login request)).

Definition validation_headers (access_token : jsval) : Headers :=
  [("Authorization", "Bearer " ++ js_String access_token)].

Definition validate (rt : Runtime) (request : NextRequest)
           (access_token refresh_token : jsval) : IO Completion :=
  o <- axios_get rt (validation_url rt) (validation_headers access_token) ;;
  match o with
  | Resolves _ => ret (Returns NextResponse_next)
  | Rejects error => on_validation_error rt request refresh_token error
  end.

Definition middleware (rt : Runtime) (request : NextRequest)
  : IO Completion :=
  if negb (existsb (fun p => String.prefix p (pathname request))
                   protectedPaths)
  then ret (Returns NextResponse_next)
  else
    oauthData <- cookies_get (request_cookies request) "oauth_data" ;;
    if negb (truthy_str oauthData)
    then ret (Returns (redirect_login request))
    else
      match JSON_parse rt (nullish oauthData EmptyString) with
      | None => ret (Returns (redirect_login request))
      | Some parsedData =>
          match member parsedData "access_token",
                member parsedData "refresh_token" with
          | Some access_token, Some refresh_token =>
              if negb (truthy access_token) || negb (truthy refresh_token)
              then ret (Returns (redirect_login request))
              else validate rt request access_token refresh_token
          | _, _ => ret (Uncaught "TypeError")
          end
      end.

Definition config_matcher : list string := ["/dashboard/:path*"].

End MiddlewareB.

(** ** The framework's gate

    Modelled from the spec: the framework that reads [config.matcher] is
    not part of the sources.  In the specification's words, only paths
    under the protected prefix invoke the middleware and all others bypass
    it: a pattern [base/:path*] selects [base] and everything below it, a
    pattern without parameters selects itself.  The framework's own
    matcher differs at the edges (it also selects the data paths
    [base.json] and [base.rsc], and refuses empty segments); the
    statements below use the gate on selected paths only, where it hands
    the request to the middleware of the sources. *)

Module Framework.

Definition wildcard : string := "/:path*".

Definition strip_suffix (suffix s : string) : option string :=
  let n := (String.length s - String.length suffix)%nat in
  if (String.length suffix <=? String.length s)%nat
     && String.eqb (substring n (String.length suffix) s) suffix
  then Some (substring 0 n s)
  else None.

Definition matcher_accepts (pattern p : string) : bool :=
  match strip_suffix wildcard pattern with
  | Some base => String.eqb p base || String.prefix (base ++ "/") p
  | None => String.eqb p pattern
  end.

Definition selected (matcher : list string) (request : NextRequest) : bool :=
  existsb (fun pattern => matcher_accepts pattern (pathname request)) matcher.

(** What the deployed application answers: the middleware's response
    on a selected path, the untouched request otherwise. *)
Definition dispatch {R : Type} (matcher : list string)
           (middleware : NextRequest -> IO R) (pass : R)
           (request : NextRequest) : IO R :=
  if selected matcher request then middleware request else ret pass.

End Framework.

(** The first implementation as deployed, behind its [config]. *)
Definition guardA (rt : Runtime) (request : NextRequest) : IO NextResponse :=
  Framework.dispatch MiddlewareA.config_matcher (MiddlewareA.middleware rt)
                     NextResponse_next request.

(** The second implementation as deployed, behind its [config]. *)
Definition guardB (rt : Runtime) (request : NextRequest) : IO Completion :=
  Framework.dispatch MiddlewareB.config_matcher (MiddlewareB.middleware rt)
                     (Returns NextResponse_next) request.

(** A path is under [prefix] when it is [prefix] or continues it with a
    further segment. *)
Definition under (prefix p : string) : bool :=
  String.eqb p prefix || String.prefix (prefix ++ "/") p.

(** ** The callback handler ([GET] of the callback route) *)

Module Callback.

Record Request : Type := {
  searchParams : list (string * string);   (* new URL(request.url) *)
  cookieStore : list (string * string)     (* await cookies() *)
}.

Definition payload_of (e : string) : OAuthErrorPayload :=
  {| error := e; message := None; code := None; status := None;
     details := undefined; stack := None; name := None |}.

Definition invalid_state : OAuthErrorPayload :=
  payload_of "Invalid state: missing code or verifier".

Definition token_params (rt : Runtime) (code verifier : string)
  : URLSearchParams :=
  [("grant_type", "authorization_code");
   ("client_id",
    nullish (NEXT_PUBLIC_OAUTH_CLIENT_ID (process_env rt)) EmptyString);
   ("redirect_uri",
    nullish (NEXT_PUBLIC_OAUTH_REDIRECT_URI (process_env rt)) EmptyString);
   ("code", code);
   ("code_verifier", verifier)].

(** The options of the cookie the callback writes: no [maxAge]. *)
Definition oauth_cookie_options : CookieOptions :=
  {| httpOnly := true; secure := false; sameSite := "lax"; path := "/";
     maxAge := undefined |}.

Definition dashboard_url (rt : Runtime) : string :=
  interpolate (NEXT_PUBLIC_APP_URL (process_env rt)) ++ "/dashboard".

(** The response of a successful exchange. *)
Definition success (rt : Runtime) (data : json) : NextResponse :=
  cookies_delete
    (cookies_set (NextResponse_redirect (dashboard_url rt)) "oauth_data"
                 (JSON_stringify rt data) oauth_cookie_options)
    "pkce_verifier".

(** The [try] block: [inl] is what it throws. *)
Definition exchange (rt : Runtime) (code verifier : string)
  : IO (Thrown + NextResponse) :=
  let tokenUrl := NEXT_PUBLIC_OAUTH_TOKEN_URL (process_env rt) in
  if negb (truthy_str tokenUrl)
  then ret (inl (JsError "Error" "Token URL not defined" (captured_stack rt)))
  else
    o <- axios_post rt (nullish tokenUrl EmptyString)
           (token_params rt code verifier) form_headers ;;
    match o with
    | Rejects e => ret (inl e)
    | Resolves data =>
        match redirect_raises rt (dashboard_url rt) with
        | Some e => ret (inl e)
        | None => ret (inr (success rt data))
        end
    end.

(** The [catch (err)] clause's payload. *)
Definition error_payload (rt : Runtime) (err : Thrown) : OAuthErrorPayload :=
  match err with
  | AxiosError m c response =>
      {| error := "OAuth Error"; message := Some m; code := c;
         status := response_status response;
         details := Some (match response with
                          | Some (_, d) => d
                          | None => JNull
                          end);
         stack := None; name := None |}
  | JsError n m st =>
      {| error := "OAuth Error"; message := Some m; code := None;
         status := None; details := undefined;
         stack :=
           if negb (match NODE_ENV (process_env rt) with
                    | Some e => String.eqb e "production"
                    | None => false
                    end)
              && truthy_str st
           then st else None;
         name := Some n |}
  | NonError shown =>
      {| error := "OAuth Error"; message := None; code := None;
         status := None; details := Some (JStr shown);
         stack := None; name := None |}
  end.

Definition GET (rt : Runtime) (request : Request) : IO NextResponse :=
  let code := assoc "code" (searchParams request) in
  verifier <- cookies_get (cookieStore request) "pkce_verifier" ;;
  if negb (truthy_str code) || negb (truthy_str verifier)
  then ret (NextResponse_json invalid_state 400)
  else
    r <- exchange rt (nullish code EmptyString) (nullish verifier EmptyString) ;;
    match r with
    | inr response => ret response
    | inl err => ret (NextResponse_json (error_payload rt err) 500)
    end.

End Callback.

(** ** A concrete runtime

    A finite JSON codec ([parse] inverts [stringify] on the values it is
    given) and a provider with fixed answers, to run the handlers on
    concrete requests. *)

Module Demo.

Definition quote : string := String (ascii_of_nat 34) EmptyString.

Fixpoint stringify (v : json) : string :=
  match v with
  | JNull => "null"
  | JBool true => "true"
  | JBool false => "false"
  | JNum n => NilZero.string_of_int (Z.to_int n)
  | JStr s => quote ++ s ++ quote
  | JArr items => "[" ++ String.concat "," (map stringify items) ++ "]"
  | JObj fields =>
      "{" ++ String.concat ","
               (map (fun kv => quote ++ fst kv ++ quote ++ ":" ++ stringify (snd kv))
                    fields)
          ++ "}"
  end.

Definition parse (known : list json) (text : string) : option json :=
  find (fun v => String.eqb (stringify v) text) known.

Definition env : ProcessEnv :=
  {| NEXT_PUBLIC_API_URL := Some "https://api.example.com";
     NEXT_PUBLIC_OAUTH_CLIENT_ID := Some "client-1";
     NEXT_PUBLIC_OAUTH_TOKEN_URL := Some "https://api.example.com/oauth/token";
     NEXT_PUBLIC_OAUTH_REDIRECT_URI := Some "https://app.example.com/auth/callback";
     NEXT_PUBLIC_APP_URL := Some "https://app.example.com";
     NODE_ENV := Some "production" |}.

Definition bundle (expires_in : Z) : json :=
  JObj [("access_token", JStr "at-1"); ("refresh_token", JStr "rt-1");
        ("expires_in", JNum expires_in)].

Definition access_only : json := JObj [("access_token", JStr "at-1")].

Definition known : list json :=
  [bundle 3600; bundle 0; access_only; JNull].

(** A runtime whose provider answers every GET with [on_get] and every
    POST with [on_post]. *)
Definition runtime (on_get on_post : AxiosOutcome) : Runtime :=
  {| JSON_parse := parse known;
     JSON_stringify := stringify;
     redirect_raises := fun _ => None;
     captured_stack := Some "Error: at GET";
     process_env := env;
     provider_get := fun _ _ => on_get;
     provider_post := fun _ _ _ => on_post |}.

Definition http_error (st : Z) : AxiosOutcome :=
  Rejects (AxiosError "Request failed" (Some "ERR_BAD_REQUEST")
                      (Some (st, JObj [("message", JStr "denied")]))).

Definition ok : AxiosOutcome := Resolves (JObj [("id", JNum 1)]).

Definition dashboard (cookie : json) : NextRequest :=
  {| origin := "https://app.example.com";
     pathname := "/dashboard/settings";
     request_cookies := [("oauth_data", stringify cookie)] |}.

Definition callback (code verifier : string) : Callback.Request :=
  {| Callback.searchParams := [("code", code)];
     Callback.cookieStore := [("pkce_verifier", verifier)] |}.

End Demo.

(** ** Vocabulary of the statements *)

(** The request carries an [oauth_data] cookie that [JSON.parse] reads as
    [oauthData].  [JSON.parse] raises on the empty string, so the text of a
    cookie that parses is not empty. *)
Definition carries (rt : Runtime) (request : NextRequest) (oauthData : json)
  : Prop :=
  exists text,
    assoc "oauth_data" (request_cookies request) = Some text
    /\ text <> EmptyString
    /\ JSON_parse rt text = Some oauthData.

(** What the provider answers to the validation call and to the refresh
    call that the first implementation makes for the cookie [oauthData]. *)
Definition validation_outcome (rt : Runtime) (oauthData : json) : AxiosOutcome :=
  provider_get rt (validation_url rt)
    (MiddlewareA.validation_headers (optional_member oauthData "access_token")).

Definition refresh_outcome (rt : Runtime) (oauthData : json) : AxiosOutcome :=
  provider_post rt (refresh_url rt)
    (refresh_params rt (optional_member oauthData "refresh_token"))
    form_headers.

(** The HTTP status a rejection carries, if it carries one. *)
Definition http_status_of (e : Thrown) : option Z :=
  match e with
  | AxiosError _ _ response => response_status response
  | _ => None
  end.

(** ** The state machine of the guard

    Every run of the first implementation is one of six: the trace it
    leaves and the response it returns. *)

Definition refresh_fails (o : AxiosOutcome) : Prop :=
  match o with
  | Rejects _ => True
  | Resolves newTokens => member newTokens "expires_in" = None
  end.

Inductive GuardRun (rt : Runtime) (request : NextRequest)
  : IO NextResponse -> Prop :=
| Run_no_token :
    GuardRun rt request ([CookieRead "oauth_data"], redirect_login request)
| Run_allowed url hd data :
    GuardRun rt request
      ([CookieRead "oauth_data"; HttpGet url hd (Resolves data)],
       NextResponse_next)
| Run_forbidden url hd e :
    http_status_of e = Some 403%Z ->
    GuardRun rt request
      ([CookieRead "oauth_data"; HttpGet url hd (Rejects e)],
       redirect_forbidden request)
| Run_denied url hd e :
    http_status_of e <> Some 401%Z ->
    http_status_of e <> Some 403%Z ->
    GuardRun rt request
      ([CookieRead "oauth_data"; HttpGet url hd (Rejects e)],
       redirect_login request)
| Run_refreshed url hd e purl body phd newTokens expires_in :
    http_status_of e = Some 401%Z ->
    member newTokens "expires_in" = Some expires_in ->
    GuardRun rt request
      ([CookieRead "oauth_data"; HttpGet url hd (Rejects e);
        HttpPost purl body phd (Resolves newTokens)],
       cookies_set NextResponse_next "oauth_data"
         (JSON_stringify rt newTokens)
         (refreshed_cookie_options rt expires_in))
| Run_refresh_failed url hd e purl body phd o :
    http_status_of e = Some 401%Z ->
    refresh_fails o ->
    GuardRun rt request
      ([CookieRead "oauth_data"; HttpGet url hd (Rejects e);
        HttpPost purl body phd o],
       redirect_login request).

(** ** The runs of the callback handler *)

Definition missing (s : option string) : Prop :=
  s = None \/ s = Some EmptyString.

Inductive CallbackRun (rt : Runtime) (request : Callback.Request)
  : IO NextResponse -> Prop :=
| Cb_invalid_state :
    missing (assoc "code" (Callback.searchParams request))
    \/ missing (assoc "pkce_verifier" (Callback.cookieStore request)) ->
    CallbackRun rt request
      ([CookieRead "pkce_verifier"],
       NextResponse_json Callback.invalid_state 400)
| Cb_no_token_url :
    missing (NEXT_PUBLIC_OAUTH_TOKEN_URL (process_env rt)) ->
    CallbackRun rt request
      ([CookieRead "pkce_verifier"],
       NextResponse_json
         (Callback.error_payload rt
            (JsError "Error" "Token URL not defined" (captured_stack rt)))
         500)
| Cb_provider_error url body hd e :
    CallbackRun rt request
      ([CookieRead "pkce_verifier"; HttpPost url body hd (Rejects e)],
       NextResponse_json (Callback.error_payload rt e) 500)
| Cb_redirect_error url body hd data e :
    redirect_raises rt (Callback.dashboard_url rt) = Some e ->
    CallbackRun rt request
      ([CookieRead "pkce_verifier"; HttpPost url body hd (Resolves data)],
       NextResponse_json (Callback.error_payload rt e) 500)
| Cb_success url body hd data :
    ~ missing (assoc "code" (Callback.searchParams request)) ->
    ~ missing (assoc "pkce_verifier" (Callback.cookieStore request)) ->
    redirect_raises rt (Callback.dashboard_url rt) = None ->
    CallbackRun rt request
      ([CookieRead "pkce_verifier"; HttpPost url body hd (Resolves data)],
       Callback.success rt data).

(** ** Concrete runs *)

Module Runs.

(** The provider rejects the validation with a 403. *)
Definition rt_403 : Runtime := Demo.runtime (Demo.http_error 403) Demo.ok.

(** The provider rejects the validation with a 500. *)
Definition rt_500 : Runtime := Demo.runtime (Demo.http_error 500) Demo.ok.

(** The provider accepts the access token. *)
Definition rt_valid : Runtime := Demo.runtime Demo.ok Demo.ok.

(** The access token has expired; the refresh returns a bundle whose
    [expires_in] is [seconds]. *)
Definition rt_expired (seconds : Z) : Runtime :=
  Demo.runtime (Demo.http_error 401) (Resolves (Demo.bundle seconds)).

(** The token endpoint returns a bundle whose [expires_in] is 7200. *)
Definition rt_exchange : Runtime :=
  Demo.runtime Demo.ok (Resolves (Demo.bundle 7200)).

Definition with_bundle : NextRequest := Demo.dashboard (Demo.bundle 3600).

Definition without_refresh_token : NextRequest :=
  Demo.dashboard Demo.access_only.

Definition login_page : NextRequest :=
  {| origin := "https://app.example.com";
     pathname := "/auth/login";
     request_cookies := [] |}.

Definition no_cookie : NextRequest :=
  {| origin := "https://app.example.com";
     pathname := "/dashboard";
     request_cookies := [] |}.

End Runs.

(** The specification's reading of the max-age of an [oauth_data] cookie
    written for the bundle [tokens]: its [expires_in], and 3600 when the
    bundle has none. *)
Definition specified_max_age (tokens : json) : jsval :=
  match optional_member tokens "expires_in" with
  | Some v => Some v
  | None => Some (JNum 3600)
  end.

Definition writes_specified_max_age (tokens : json) (r : NextResponse) : Prop :=
  forall v o,
    In (CookieSet "oauth_data" v o) (cookies r) ->
    maxAge o = specified_max_age tokens.

(** The specification's reading of the 400 answer: given exactly when the
    code parameter or the verifier cookie is absent. *)
Definition invalid_state_iff_absent (rt : Runtime) (request : Callback.Request)
  : Prop :=
  result (Callback.GET rt request) = NextResponse_json Callback.invalid_state 400
  <-> (assoc "code" (Callback.searchParams request) = None
       \/ assoc "pkce_verifier" (Callback.cookieStore request) = None).

(** ** The PKCE initiator ([GET] of the login route) *)

Module Start.

(** What the handler imports and does not define: the two functions of
    [@/lib/pkce] ([generateCodeVerifier] is the verifier this call draws)
    and the encoding [URLSearchParams.toString] applies. *)
Record PkceLib : Type := {
  generateCodeVerifier : string;
  generateCodeChallenge : string -> string;
  URLSearchParams_toString : URLSearchParams -> string
}.

(** The handler's answer: the target of [Response.redirect] and what it
    did to the cookie store. *)
Record Answer : Type := {
  redirect_to : string;
  stored : list CookieOp
}.

Definition verifier_cookie_options : CookieOptions :=
  {| httpOnly := true; secure := false; sameSite := "lax"; path := "/";
     maxAge := undefined |}.

Definition challenge_params (challenge : string) : URLSearchParams :=
  [("code_challenge", challenge); ("code_challenge_method", "S256")].

Definition GET (lib : PkceLib) : Answer :=
  let verifier := generateCodeVerifier lib in
  let challenge := generateCodeChallenge lib verifier in
  let set := CookieSet "pkce_verifier" verifier verifier_cookie_options in
  let params := challenge_params challenge in
  {| redirect_to :=
       "http://localhost:8000/start-pkce?" ++ URLSearchParams_toString lib params;
     stored := [set] |}.

End Start.

(** ** The two provider calls of the guard, as events *)

Definition validation_call (rt : Runtime) (oauthData : json) : Event :=
  HttpGet (validation_url rt)
    (MiddlewareA.validation_headers (optional_member oauthData "access_token"))
    (validation_outcome rt oauthData).

Definition refresh_call (rt : Runtime) (oauthData : json) : Event :=
  HttpPost (refresh_url rt)
    (refresh_params rt (optional_member oauthData "refresh_token"))
    form_headers (refresh_outcome rt oauthData).

(** ** The runs of the second implementation *)

Inductive GuardRunB (rt : Runtime) (request : NextRequest)
  : IO Completion -> Prop :=
| RunB_unprotected :
    String.prefix "/dashboard" (pathname request) = false ->
    GuardRunB rt request ([], Returns NextResponse_next)
| RunB_no_token :
    GuardRunB rt request
      ([CookieRead "oauth_data"], Returns (redirect_login request))
| RunB_null :
    GuardRunB rt request ([CookieRead "oauth_data"], Uncaught "TypeError")
| RunB_allowed url hd data :
    GuardRunB rt request
      ([CookieRead "oauth_data"; HttpGet url hd (Resolves data)],
       Returns NextResponse_next)
| RunB_fell_through url hd e :
    isAxiosError e = true ->
    http_status_of e <> Some 401%Z ->
    GuardRunB rt request
      ([CookieRead "oauth_data"; HttpGet url hd (Rejects e)],
       ReturnsUndefined)
| RunB_denied url hd e :
    isAxiosError e = false ->
    GuardRunB rt request
      ([CookieRead "oauth_data"; HttpGet url hd (Rejects e)],
       Returns (redirect_login request))
| RunB_refreshed url hd e purl body phd newTokens expires_in :
    http_status_of e = Some 401%Z ->
    member newTokens "expires_in" = Some expires_in ->
    GuardRunB rt request
      ([CookieRead "oauth_data"; HttpGet url hd (Rejects e);
        HttpPost purl body phd (Resolves newTokens)],
       Returns (cookies_set NextResponse_next "oauth_data"
                  (JSON_stringify rt newTokens)
                  (refreshed_cookie_options rt expires_in)))
| RunB_refresh_failed url hd e purl body phd o :
    http_status_of e = Some 401%Z ->
    refresh_fails o ->
    GuardRunB rt request
      ([CookieRead "oauth_data"; HttpGet url hd (Rejects e);
        HttpPost purl body phd o],
       Returns (redirect_login request)).

(** ** More concrete runs *)

Module Samples.

Definition lib : Start.PkceLib :=
  {| Start.generateCodeVerifier := "verifier-1";
     Start.generateCodeChallenge := fun v => "S256:" ++ v;
     Start.URLSearchParams_toString :=
       fun ps => String.concat "&" (map (fun kv => fst kv ++ "=" ++ snd kv) ps) |}.

(** The token endpoint rejects the exchange with a 400. *)
Definition rt_rejected : Runtime := Demo.runtime Demo.ok (Demo.http_error 400).

(** The exchange fails with an exception that is not an axios error. *)
Definition crash : Thrown := JsError "TypeError" "fetch failed" (Some "at exchange").

Definition rt_crash : Runtime := Demo.runtime Demo.ok (Rejects crash).

(** No token URL is configured. *)
Definition rt_unconfigured : Runtime :=
  {| JSON_parse := Demo.parse Demo.known;
     JSON_stringify := Demo.stringify;
     redirect_raises := fun _ => None;
     captured_stack := Some "Error: at GET";
     process_env :=
       {| NEXT_PUBLIC_API_URL := Some "https://api.example.com";
          NEXT_PUBLIC_OAUTH_CLIENT_ID := Some "client-1";
          NEXT_PUBLIC_OAUTH_TOKEN_URL := None;
          NEXT_PUBLIC_OAUTH_REDIRECT_URI := None;
          NEXT_PUBLIC_APP_URL := Some "https://app.example.com";
          NODE_ENV := Some "development" |};
     provider_get := fun _ _ => Demo.ok;
     provider_post := fun _ _ _ => Demo.ok |}.

(** The access token has expired and the refresh is rejected. *)
Definition rt_refresh_rejected : Runtime :=
  Demo.runtime (Demo.http_error 401) (Demo.http_error 400).

(** The token endpoint returns the bundle the guard knows how to read. *)
Definition rt_login : Runtime :=
  Demo.runtime Demo.ok (Resolves (Demo.bundle 3600)).

Definition returning : Callback.Request := Demo.callback "code-1" "verifier-1".

End Samples.

(** ** The bypass of unprotected paths *)



(** ** Strings and the matcher *)

Lemma eqb_empty_false (s : string) :
  s <> EmptyString -> String.eqb s EmptyString = false.
Proof.
  intros H. destruct (String.eqb s EmptyString) eqn:E; [|reflexivity].
  apply String.eqb_eq in E. contradiction.
Qed.

Lemma truthy_str_some (s : string) :
  s <> EmptyString -> truthy_str (Some s) = true.
Proof. intros H. simpl. now rewrite eqb_empty_false. Qed.

Lemma truthy_str_true (o : option string) :
  truthy_str o = true -> exists s, o = Some s /\ s <> EmptyString.
Proof.
  destruct o as [s|]; simpl; [|discriminate].
  intros H. exists s. split; [reflexivity|].
  intros ->. discriminate.
Qed.

Lemma prefix_app (a b p : string) :
  String.prefix (a ++ b) p = true -> String.prefix a p = true.
Proof.
  revert p. induction a as [|c a IH]; intros p.
  - destruct p; reflexivity.
  - destruct p as [|d p]; simpl; [discriminate|].
    destruct (ascii_dec c d); [apply IH|discriminate].
Qed.

Lemma prefix_refl (a : string) : String.prefix a a = true.
Proof.
  induction a as [|c a IH]; simpl; [reflexivity|].
  destruct (ascii_dec c c); [exact IH|contradiction].
Qed.

Lemma under_prefix (base p : string) :
  under base p = true -> String.prefix base p = true.
Proof.
  unfold under. intros H. apply orb_true_iff in H as [H|H].
  - apply String.eqb_eq in H. subst. apply prefix_refl.
  - now apply prefix_app in H.
Qed.

Lemma matcher_dashboard (p : string) :
  Framework.matcher_accepts "/dashboard/:path*" p = under "/dashboard" p.
Proof. reflexivity. Qed.

Lemma selected_A (request : NextRequest) :
  Framework.selected MiddlewareA.config_matcher request
  = under "/dashboard" (pathname request).
Proof.
  unfold Framework.selected, MiddlewareA.config_matcher. simpl.
  rewrite matcher_dashboard. apply orb_false_r.
Qed.

Lemma selected_B (request : NextRequest) :
  Framework.selected MiddlewareB.config_matcher request
  = under "/dashboard" (pathname request).
Proof.
  unfold Framework.selected, MiddlewareB.config_matcher. simpl.
  rewrite matcher_dashboard. apply orb_false_r.
Qed.

Lemma guardA_protected (rt : Runtime) (request : NextRequest) :
  under "/dashboard" (pathname request) = true ->
  guardA rt request = MiddlewareA.middleware rt request.
Proof.
  intros H. unfold guardA, Framework.dispatch. now rewrite selected_A, H.
Qed.

Lemma guardB_protected (rt : Runtime) (request : NextRequest) :
  under "/dashboard" (pathname request) = true ->
  guardB rt request = MiddlewareB.middleware rt request.
Proof.
  intros H. unfold guardB, Framework.dispatch. now rewrite selected_B, H.
Qed.

(** ** The first implementation, step by step *)

Lemma middlewareA_no_cookie (rt : Runtime) (request : NextRequest) :
  truthy_str (assoc "oauth_data" (request_cookies request)) = false ->
  MiddlewareA.middleware rt request
  = ([CookieRead "oauth_data"], redirect_login request).
Proof.
  intros H. unfold MiddlewareA.middleware, cookies_get, bind.
  now rewrite H.
Qed.

Lemma middlewareA_unparsable (rt : Runtime) (request : NextRequest) (text : string) :
  assoc "oauth_data" (request_cookies request) = Some text ->
  JSON_parse rt text = None ->
  MiddlewareA.middleware rt request
  = ([CookieRead "oauth_data"], redirect_login request).
Proof.
  intros Hc Hp. unfold MiddlewareA.middleware, cookies_get, bind.
  rewrite Hc. destruct (negb (truthy_str (Some text))); [reflexivity|].
  simpl. now rewrite Hp.
Qed.

Lemma middlewareA_parsed (rt : Runtime) (request : NextRequest) (oauthData : json) :
  carries rt request oauthData ->
  MiddlewareA.middleware rt request
  = if truthy (optional_member oauthData "access_token")
    then
      let v := MiddlewareA.validate rt request
                 (optional_member oauthData "access_token")
                 (optional_member oauthData "refresh_token") in
      (CookieRead "oauth_data" :: trace v, result v)
    else ([CookieRead "oauth_data"], redirect_login request).
Proof.
  intros (text & Hc & Hne & Hp).
  unfold MiddlewareA.middleware, cookies_get, bind.
  rewrite Hc, (truthy_str_some _ Hne). simpl. rewrite Hp.
  destruct (truthy (optional_member oauthData "access_token")); simpl;
    [|reflexivity].
  now destruct (MiddlewareA.validate _ _ _ _).
Qed.

Lemma validateA_outcome (rt : Runtime) (request : NextRequest) (oauthData : json) :
  let get := HttpGet (validation_url rt)
               (MiddlewareA.validation_headers
                  (optional_member oauthData "access_token"))
               (validation_outcome rt oauthData) in
  MiddlewareA.validate rt request
    (optional_member oauthData "access_token")
    (optional_member oauthData "refresh_token")
  = match validation_outcome rt oauthData with
    | Resolves _ => ([get], NextResponse_next)
    | Rejects error =>
        let h := MiddlewareA.on_validation_error rt request
                   (optional_member oauthData "refresh_token") error in
        (get :: trace h, result h)
    end.
Proof.
  unfold MiddlewareA.validate, axios_get, bind, validation_outcome. simpl.
  destruct (provider_get _ _ _) as [d|e]; [reflexivity|].
  now destruct (MiddlewareA.on_validation_error _ _ _ _).
Qed.

Lemma refreshA_outcome (rt : Runtime) (request : NextRequest) (oauthData : json) :
  let post := HttpPost (refresh_url rt)
                (refresh_params rt (optional_member oauthData "refresh_token"))
                form_headers (refresh_outcome rt oauthData) in
  MiddlewareA.refresh rt request (optional_member oauthData "refresh_token")
  = ([post],
     match refresh_outcome rt oauthData with
     | Resolves newTokens =>
         match member newTokens "expires_in" with
         | Some expires_in =>
             cookies_set NextResponse_next "oauth_data"
               (JSON_stringify rt newTokens)
               (refreshed_cookie_options rt expires_in)
         | None => redirect_login request
         end
     | Rejects _ => redirect_login request
     end).
Proof.
  unfold MiddlewareA.refresh, axios_post, bind, refresh_outcome. simpl.
  destruct (provider_post _ _ _ _) as [d|e]; [|reflexivity].
  now destruct (member d "expires_in").
Qed.

Lemma status_is_true (st : option Z) (n : Z) :
  status_is st n = true <-> st = Some n.
Proof.
  destruct st as [s|]; simpl.
  - rewrite Z.eqb_eq. split; [now intros ->|now intros [= ->]].
  - split; discriminate.
Qed.

Lemma status_is_false (st : option Z) (n : Z) :
  status_is st n = false <-> st <> Some n.
Proof.
  rewrite <- status_is_true. destruct (status_is st n); split;
    congruence.
Qed.

Lemma on_validation_errorA_401 (rt : Runtime) (request : NextRequest)
      (refresh_token : jsval) (e : Thrown) :
  http_status_of e = Some 401%Z ->
  MiddlewareA.on_validation_error rt request refresh_token e
  = MiddlewareA.refresh rt request refresh_token.
Proof.
  destruct e as [m c r| |]; simpl; try discriminate.
  intros H. apply status_is_true in H. now rewrite H.
Qed.

Lemma on_validation_errorA_403 (rt : Runtime) (request : NextRequest)
      (refresh_token : jsval) (e : Thrown) :
  http_status_of e = Some 403%Z ->
  MiddlewareA.on_validation_error rt request refresh_token e
  = ret (redirect_forbidden request).
Proof.
  destruct e as [m c r| |]; simpl; try discriminate.
  intros H. rewrite H. reflexivity.
Qed.

Lemma on_validation_errorA_other (rt : Runtime) (request : NextRequest)
      (refresh_token : jsval) (e : Thrown) :
  http_status_of e <> Some 401%Z ->
  http_status_of e <> Some 403%Z ->
  MiddlewareA.on_validation_error rt request refresh_token e
  = ret (redirect_login request).
Proof.
  destruct e as [m c r| |]; simpl; try reflexivity.
  intros H1 H3. apply status_is_false in H1, H3. now rewrite H1, H3.
Qed.

(** ** Every run of the guard is one of the six *)

Lemma option_Z_eq_dec (a b : option Z) : {a = b} + {a <> b}.
Proof. decide equality. apply Z.eq_dec. Qed.

Lemma middlewareA_runs (rt : Runtime) (request : NextRequest) :
  GuardRun rt request (MiddlewareA.middleware rt request).
Proof.
  destruct (truthy_str (assoc "oauth_data" (request_cookies request))) eqn:Hc.
  2: { rewrite middlewareA_no_cookie by assumption. constructor. }
  apply truthy_str_true in Hc as (text & Hc & Hne).
  destruct (JSON_parse rt text) as [oauthData|] eqn:Hp.
  2: { rewrite (middlewareA_unparsable _ _ _ Hc Hp). constructor. }
  rewrite (middlewareA_parsed rt request oauthData)
    by (exists text; auto).
  destruct (truthy (optional_member oauthData "access_token"));
    [|constructor].
  cbv zeta. rewrite validateA_outcome. cbv zeta.
  destruct (validation_outcome rt oauthData) as [d|e]; [constructor|].
  destruct (option_Z_eq_dec (http_status_of e) (Some 401%Z)) as [H1|H1].
  - rewrite on_validation_errorA_401, refreshA_outcome by assumption.
    cbv zeta. unfold trace, result, fst, snd.
    destruct (refresh_outcome rt oauthData) as [newTokens|e'].
    + destruct (member newTokens "expires_in") as [x|] eqn:Hm.
      * now apply Run_refreshed.
      * now apply Run_refresh_failed.
    + now apply Run_refresh_failed.
  - destruct (option_Z_eq_dec (http_status_of e) (Some 403%Z)) as [H3|H3].
    + rewrite on_validation_errorA_403 by assumption. now apply Run_forbidden.
    + rewrite on_validation_errorA_other by assumption. now apply Run_denied.
Qed.

(** ** The guard on protected paths *)

Lemma guardA_validating (rt : Runtime) (request : NextRequest) (oauthData : json) :
  under "/dashboard" (pathname request) = true ->
  carries rt request oauthData ->
  truthy (optional_member oauthData "access_token") = true ->
  guardA rt request
  = let v := MiddlewareA.validate rt request
               (optional_member oauthData "access_token")
               (optional_member oauthData "refresh_token") in
    (CookieRead "oauth_data" :: trace v, result v).
Proof.
  intros Hu Hc Ht.
  rewrite guardA_protected, (middlewareA_parsed rt request oauthData) by assumption.
  now rewrite Ht.
Qed.

(** C2. A request to a protected path with a parsable [oauth_data] cookie
    whose access token is not empty, validated with a 403 by the provider,
    is answered with a redirect to [/auth/forbidden]. *)
Theorem forbidden_on_403 (rt : Runtime) (request : NextRequest)
        (oauthData : json) (e : Thrown) :
  under "/dashboard" (pathname request) = true ->
  carries rt request oauthData ->
  truthy (optional_member oauthData "access_token") = true ->
  validation_outcome rt oauthData = Rejects e ->
  http_status_of e = Some 403%Z ->
  result (guardA rt request)
  = NextResponse_redirect (origin request ++ "/auth/forbidden").
Proof.
  intros Hu Hc Ht Ho He.
  rewrite (guardA_validating rt request oauthData) by assumption.
  cbv zeta. rewrite validateA_outcome, Ho. cbv zeta.
  now rewrite on_validation_errorA_403.
Qed.

(** C3. With the same cookie, a validation call that fails in any way
    other than a 401 or a 403 (another status, no response at all, an
    exception that is not an axios error) is answered with a redirect to
    [/auth/login]. *)
Theorem login_on_other_validation_failure (rt : Runtime) (request : NextRequest)
        (oauthData : json) (e : Thrown) :
  under "/dashboard" (pathname request) = true ->
  carries rt request oauthData ->
  truthy (optional_member oauthData "access_token") = true ->
  validation_outcome rt oauthData = Rejects e ->
  http_status_of e <> Some 401%Z ->
  http_status_of e <> Some 403%Z ->
  result (guardA rt request)
  = NextResponse_redirect (origin request ++ "/auth/login").
Proof.
  intros Hu Hc Ht Ho H1 H3.
  rewrite (guardA_validating rt request oauthData) by assumption.
  cbv zeta. rewrite validateA_outcome, Ho. cbv zeta.
  now rewrite on_validation_errorA_other.
Qed.

(** C8. One invocation of the middleware issues at most one validation
    GET and at most one refresh POST; a POST is the last thing the
    invocation does and follows a validation that was rejected with a 401;
    when the POST resolves with a token bundle the request proceeds with
    the rewritten cookie. *)
Theorem single_refresh_attempt (rt : Runtime) (request : NextRequest) :
  (length (filter is_post (trace (MiddlewareA.middleware rt request))) <= 1)%nat
  /\ (length (filter is_get (trace (MiddlewareA.middleware rt request))) <= 1)%nat
  /\ forall url body hd o,
      In (HttpPost url body hd o) (trace (MiddlewareA.middleware rt request)) ->
      exists gurl ghd e,
        http_status_of e = Some 401%Z
        /\ trace (MiddlewareA.middleware rt request)
           = [CookieRead "oauth_data"; HttpGet gurl ghd (Rejects e);
              HttpPost url body hd o]
        /\ forall newTokens,
            o = Resolves newTokens ->
            newTokens <> JNull ->
            result (MiddlewareA.middleware rt request)
            = cookies_set NextResponse_next "oauth_data"
                (JSON_stringify rt newTokens)
                (refreshed_cookie_options rt
                   (optional_member newTokens "expires_in")).
Proof.
  destruct (middlewareA_runs rt request)
    as [ | | | | url hd e purl body phd newTokens expires_in H401 Hexp
         | url hd e purl body phd o H401 Hfail ];
    unfold trace, result, fst, snd;
    (split; [simpl; lia|split; [simpl; lia|]]);
    intros purl' body' phd' o' Hin; simpl in Hin;
    repeat (destruct Hin as [Hin|Hin]; try discriminate Hin);
    try contradiction; injection Hin as -> -> -> <-.
  - exists url, hd, e. split; [assumption|split; [reflexivity|]].
    intros t [= <-] Hnull. unfold member in Hexp.
    destruct newTokens; try contradiction; now injection Hexp as <-.
  - exists url, hd, e. split; [assumption|split; [reflexivity|]].
    intros t -> Hnull. simpl in Hfail. unfold member in Hfail.
    destruct t; try discriminate; contradiction.
Qed.

(** C7, amended. Every [oauth_data] cookie the middleware writes is written
    after a refresh POST that resolved with [newTokens]; its value is
    [JSON.stringify(newTokens)] and its max-age is [newTokens.expires_in]
    when that value is truthy, 3600 otherwise (absent, [0], [null],
    [false], the empty string). *)
Theorem refresh_write_max_age (rt : Runtime) (request : NextRequest)
        (n v : string) (o : CookieOptions) :
  In (CookieSet n v o) (cookies (result (MiddlewareA.middleware rt request))) ->
  exists url body hd newTokens,
    In (HttpPost url body hd (Resolves newTokens))
       (trace (MiddlewareA.middleware rt request))
    /\ n = "oauth_data"
    /\ v = JSON_stringify rt newTokens
    /\ maxAge o
       = if truthy (optional_member newTokens "expires_in")
         then optional_member newTokens "expires_in"
         else Some (JNum 3600).
Proof.
  destruct (middlewareA_runs rt request)
    as [ | | | | url hd e purl body phd newTokens expires_in H401 Hexp | ];
    unfold trace, result, fst, snd; simpl; intros Hin; try contradiction.
  destruct Hin as [[= <- <- <-]|[]].
  exists purl, body, phd, newTokens.
  split; [right; right; left; reflexivity|].
  split; [reflexivity|split; [reflexivity|]].
  unfold member in Hexp.
  destruct newTokens; try discriminate; injection Hexp as <-; reflexivity.
Qed.

(** ** The callback handler, run by run *)

Lemma truthy_str_false (s : option string) :
  truthy_str s = false <-> missing s.
Proof.
  unfold missing. destruct s as [s|]; simpl.
  - destruct (String.eqb s EmptyString) eqn:E; simpl.
    + apply String.eqb_eq in E. subst. split; auto.
    + apply String.eqb_neq in E. split; [discriminate|].
      intros [H|[= H]]; [discriminate|contradiction].
  - split; auto.
Qed.

Lemma truthy_str_not_missing (s : option string) :
  truthy_str s = true <-> ~ missing s.
Proof.
  rewrite <- truthy_str_false. destruct (truthy_str s); split; congruence.
Qed.

Lemma callback_runs (rt : Runtime) (request : Callback.Request) :
  CallbackRun rt request (Callback.GET rt request).
Proof.
  unfold Callback.GET, cookies_get, bind.
  destruct (truthy_str (assoc "code" (Callback.searchParams request))) eqn:Hc.
  2: { simpl. apply Cb_invalid_state. left. now apply truthy_str_false. }
  destruct (truthy_str (assoc "pkce_verifier" (Callback.cookieStore request)))
    eqn:Hv.
  2: { simpl. apply Cb_invalid_state. right. now apply truthy_str_false. }
  simpl. unfold Callback.exchange, axios_post, bind.
  destruct (truthy_str (NEXT_PUBLIC_OAUTH_TOKEN_URL (process_env rt))) eqn:Hu.
  2: { simpl. apply Cb_no_token_url. now apply truthy_str_false. }
  simpl.
  destruct (provider_post rt _ _ _) as [data|e]; simpl.
  - destruct (redirect_raises rt (Callback.dashboard_url rt)) as [e|] eqn:Hr;
      simpl.
    + now apply Cb_redirect_error.
    + apply Cb_success; [now apply truthy_str_not_missing..|assumption].
  - apply Cb_provider_error.
Qed.

(** C5. When the code parameter and the verifier cookie are present and the
    handler's POST to the token endpoint resolves with a token bundle
    [data], the response is a redirect to [{APP_URL}/dashboard] that sets
    [oauth_data] to [JSON.stringify(data)] and deletes [pkce_verifier]
    ([NEXT_PUBLIC_APP_URL] being set to an absolute URL). *)
Theorem callback_success (rt : Runtime) (request : Callback.Request)
        (code verifier url : string) (body : URLSearchParams) (hd : Headers)
        (data : json) (app : string) :
  assoc "code" (Callback.searchParams request) = Some code ->
  assoc "pkce_verifier" (Callback.cookieStore request) = Some verifier ->
  In (HttpPost url body hd (Resolves data)) (trace (Callback.GET rt request)) ->
  NEXT_PUBLIC_APP_URL (process_env rt) = Some app ->
  redirect_raises rt (app ++ "/dashboard") = None ->
  result (Callback.GET rt request)
  = {| kind := Redirect (app ++ "/dashboard");
       cookies := [CookieSet "oauth_data" (JSON_stringify rt data)
                     Callback.oauth_cookie_options;
                   CookieDelete "pkce_verifier"] |}.
Proof.
  intros _ _ Hin Happ Hok.
  assert (Hd : Callback.dashboard_url rt = app ++ "/dashboard")
    by (unfold Callback.dashboard_url; now rewrite Happ).
  destruct (callback_runs rt request) as [| | | ? ? ? ? e He|];
    unfold trace, result, fst, snd in *; simpl in Hin;
    repeat (destruct Hin as [Hin|Hin]; try discriminate Hin);
    try contradiction.
  - rewrite Hd in He. congruence.
  - injection Hin as -> -> -> ->. unfold Callback.success. now rewrite Hd.
Qed.

(** C6, amended. The handler answers with status 400 exactly when the code
    parameter is absent or empty or the verifier cookie is absent or empty,
    and the body of that answer is
    [{error: "Invalid state: missing code or verifier"}]. *)
Theorem invalid_state_iff_missing (rt : Runtime) (request : Callback.Request) :
  ((exists p, kind (result (Callback.GET rt request)) = Json p 400)
   <-> (missing (assoc "code" (Callback.searchParams request))
        \/ missing (assoc "pkce_verifier" (Callback.cookieStore request))))
  /\ (forall p,
        kind (result (Callback.GET rt request)) = Json p 400 ->
        p = Callback.payload_of "Invalid state: missing code or verifier"
        /\ cookies (result (Callback.GET rt request)) = []).
Proof.
  split; [split|].
  - intros [p Hp].
    destruct (callback_runs rt request); unfold result, snd in Hp;
      simpl in Hp; try discriminate; assumption.
  - intros H. unfold Callback.GET, cookies_get, bind.
    assert (Hb : negb (truthy_str (assoc "code" (Callback.searchParams request)))
                 || negb (truthy_str (assoc "pkce_verifier"
                                        (Callback.cookieStore request))) = true).
    { apply orb_true_iff.
      destruct H as [H|H]; apply truthy_str_false in H; rewrite H; auto. }
    rewrite Hb. simpl. now exists Callback.invalid_state.
  - intros p Hp.
    destruct (callback_runs rt request); unfold result, snd in *;
      simpl in Hp; try discriminate.
    injection Hp as <-. split; reflexivity.
Qed.

(** C10. A response of the handler is either the success redirect (code
    and verifier present, token URL set, POST resolved, redirect accepted)
    or a JSON error with status 400 or 500 that sets and deletes no
    cookie. *)
Theorem callback_failure_leaves_cookies (rt : Runtime) (request : Callback.Request) :
  (~ missing (assoc "code" (Callback.searchParams request))
   /\ ~ missing (assoc "pkce_verifier" (Callback.cookieStore request))
   /\ redirect_raises rt (Callback.dashboard_url rt) = None
   /\ exists url body hd data,
       trace (Callback.GET rt request)
       = [CookieRead "pkce_verifier"; HttpPost url body hd (Resolves data)]
       /\ result (Callback.GET rt request) = Callback.success rt data)
  \/ (exists p st,
        kind (result (Callback.GET rt request)) = Json p st
        /\ (st = 400%Z \/ st = 500%Z)
        /\ cookies (result (Callback.GET rt request)) = []).
Proof.
  destruct (callback_runs rt request) as [| | | |url body hd data Hc Hv Hr];
    unfold trace, result, fst, snd.
  1-4: right; eexists; eexists; simpl; split; [reflexivity|]; split; auto.
  left. repeat (split; [assumption|]).
  exists url, body, hd, data. split; reflexivity.
Qed.

(** ** Concrete runs *)

(** C1. The two implementations differ on a protected path: with both
    tokens in the cookie and a 403 from the validation endpoint, the first
    redirects to [/auth/forbidden] and the second reaches the end of the
    function without returning a response. *)
Theorem implementations_differ_on_403 :
  result (guardA Runs.rt_403 Runs.with_bundle)
  = NextResponse_redirect "https://app.example.com/auth/forbidden"
  /\ result (guardB Runs.rt_403 Runs.with_bundle) = ReturnsUndefined.
Proof. split; reflexivity. Qed.

(** C4. A cookie that parses and has an access token but no refresh token
    does not stop the first implementation: it calls the validation
    endpoint and, the token being valid, lets the request through. *)
Theorem missing_refresh_token_reaches_provider :
  optional_member Demo.access_only "refresh_token" = undefined
  /\ guardA Runs.rt_valid Runs.without_refresh_token
     = ([CookieRead "oauth_data";
         HttpGet "https://api.example.com/api/user/show"
           [("Authorization", "Bearer at-1"); ("Accept", "application/json")]
           Demo.ok],
        NextResponse_next).
Proof. split; reflexivity. Qed.

(** C6, as stated, fails: a request whose code parameter is present but
    empty is answered with the 400 body. *)
Lemma empty_code_is_invalid_state :
  ~ invalid_state_iff_absent Runs.rt_exchange
      (Demo.callback EmptyString "verifier-1").
Proof.
  unfold invalid_state_iff_absent. intros [H _].
  destruct (H eq_refl) as [E|E]; discriminate E.
Qed.

(** C7, as stated, fails twice: a refreshed bundle with [expires_in: 0]
    is stored with max-age 3600, and the cookie the callback writes has
    no max-age at all. *)
Lemma max_age_is_not_always_expires_in :
  ~ writes_specified_max_age (Demo.bundle 0)
      (result (MiddlewareA.middleware (Runs.rt_expired 0) Runs.with_bundle))
  /\ ~ writes_specified_max_age (Demo.bundle 7200)
         (result (Callback.GET Runs.rt_exchange
                    (Demo.callback "code-1" "verifier-1"))).
Proof.
  split; intros H.
  - specialize (H _ _ (or_introl eq_refl)). discriminate H.
  - specialize (H _ _ (or_introl eq_refl)). discriminate H.
Qed.

(** ** Instances of the theorems *)

Lemma forbidden_on_403_instance :
  under "/dashboard" (pathname Runs.with_bundle) = true
  /\ validation_outcome Runs.rt_403 (Demo.bundle 3600) = Demo.http_error 403
  /\ result (guardA Runs.rt_403 Runs.with_bundle)
     = NextResponse_redirect (origin Runs.with_bundle ++ "/auth/forbidden").
Proof.
  split; [reflexivity|split; [reflexivity|]].
  eapply (forbidden_on_403 Runs.rt_403 Runs.with_bundle (Demo.bundle 3600)).
  - reflexivity.
  - eexists. split; [reflexivity|split; [discriminate|reflexivity]].
  - reflexivity.
  - reflexivity.
  - reflexivity.
Defined.

Lemma login_on_other_validation_failure_instance :
  under "/dashboard" (pathname Runs.with_bundle) = true
  /\ validation_outcome Runs.rt_500 (Demo.bundle 3600) = Demo.http_error 500
  /\ result (guardA Runs.rt_500 Runs.with_bundle)
     = NextResponse_redirect (origin Runs.with_bundle ++ "/auth/login").
Proof.
  split; [reflexivity|split; [reflexivity|]].
  eapply (login_on_other_validation_failure Runs.rt_500 Runs.with_bundle
            (Demo.bundle 3600)).
  - reflexivity.
  - eexists. split; [reflexivity|split; [discriminate|reflexivity]].
  - reflexivity.
  - reflexivity.
  - discriminate.
  - discriminate.
Defined.

Lemma refresh_write_max_age_instance :
  In (CookieSet "oauth_data" (Demo.stringify (Demo.bundle 0))
        (refreshed_cookie_options (Runs.rt_expired 0) (Some (JNum 0))))
     (cookies (result (MiddlewareA.middleware (Runs.rt_expired 0)
                         Runs.with_bundle)))
  /\ exists url body hd newTokens,
      In (HttpPost url body hd (Resolves newTokens))
         (trace (MiddlewareA.middleware (Runs.rt_expired 0) Runs.with_bundle))
      /\ "oauth_data" = "oauth_data"
      /\ Demo.stringify (Demo.bundle 0)
         = JSON_stringify (Runs.rt_expired 0) newTokens
      /\ maxAge (refreshed_cookie_options (Runs.rt_expired 0) (Some (JNum 0)))
         = if truthy (optional_member newTokens "expires_in")
           then optional_member newTokens "expires_in"
           else Some (JNum 3600).
Proof.
  split; [left; reflexivity|].
  apply (refresh_write_max_age (Runs.rt_expired 0) Runs.with_bundle
           "oauth_data" (Demo.stringify (Demo.bundle 0))
           (refreshed_cookie_options (Runs.rt_expired 0) (Some (JNum 0)))).
  left. reflexivity.
Defined.

Lemma callback_success_instance :
  result (Callback.GET Runs.rt_exchange (Demo.callback "code-1" "verifier-1"))
  = {| kind := Redirect ("https://app.example.com" ++ "/dashboard");
       cookies := [CookieSet "oauth_data"
                     (JSON_stringify Runs.rt_exchange (Demo.bundle 7200))
                     Callback.oauth_cookie_options;
                   CookieDelete "pkce_verifier"] |}.
Proof.
  eapply (callback_success Runs.rt_exchange
            (Demo.callback "code-1" "verifier-1") "code-1" "verifier-1").
  - reflexivity.
  - reflexivity.
  - right. left. reflexivity.
  - reflexivity.
  - reflexivity.
Defined.

(** ** The second implementation, and where the two agree *)

Lemma truthy_member_object (v : json) (key : string) :
  truthy (optional_member v key) = true -> exists fields, v = JObj fields.
Proof. destruct v; try discriminate. intros _. now eexists. Qed.

Lemma member_not_null (v : json) (key : string) :
  v <> JNull -> member v key = Some (optional_member v key).
Proof. destruct v; try reflexivity. contradiction. Qed.

Lemma protected_prefix (request : NextRequest) :
  under "/dashboard" (pathname request) = true ->
  existsb (fun p => String.prefix p (pathname request))
          MiddlewareB.protectedPaths = true.
Proof.
  intros H. unfold MiddlewareB.protectedPaths. simpl.
  now rewrite (under_prefix _ _ H).
Qed.

Lemma middlewareB_no_cookie (rt : Runtime) (request : NextRequest) :
  under "/dashboard" (pathname request) = true ->
  truthy_str (assoc "oauth_data" (request_cookies request)) = false ->
  MiddlewareB.middleware rt request
  = ([CookieRead "oauth_data"], Returns (redirect_login request)).
Proof.
  intros Hu H. unfold MiddlewareB.middleware, cookies_get, bind.
  now rewrite (protected_prefix _ Hu), H.
Qed.

Lemma middlewareB_unparsable (rt : Runtime) (request : NextRequest) (text : string) :
  under "/dashboard" (pathname request) = true ->
  assoc "oauth_data" (request_cookies request) = Some text ->
  JSON_parse rt text = None ->
  MiddlewareB.middleware rt request
  = ([CookieRead "oauth_data"], Returns (redirect_login request)).
Proof.
  intros Hu Hc Hp. unfold MiddlewareB.middleware, cookies_get, bind.
  rewrite (protected_prefix _ Hu), Hc. simpl.
  destruct (negb (negb (String.eqb text EmptyString))); [reflexivity|].
  simpl. now rewrite Hp.
Qed.

Lemma middlewareB_parsed (rt : Runtime) (request : NextRequest) (parsedData : json) :
  under "/dashboard" (pathname request) = true ->
  carries rt request parsedData ->
  MiddlewareB.middleware rt request
  = match parsedData with
    | JNull => ([CookieRead "oauth_data"], Uncaught "TypeError")
    | _ =>
        if negb (truthy (optional_member parsedData "access_token"))
           || negb (truthy (optional_member parsedData "refresh_token"))
        then ([CookieRead "oauth_data"], Returns (redirect_login request))
        else
          let v := MiddlewareB.validate rt request
                     (optional_member parsedData "access_token")
                     (optional_member parsedData "refresh_token") in
          (CookieRead "oauth_data" :: trace v, result v)
    end.
Proof.
  intros Hu (text & Hc & Hne & Hp).
  unfold MiddlewareB.middleware, cookies_get, bind.
  rewrite (protected_prefix _ Hu), Hc, (truthy_str_some _ Hne). simpl.
  rewrite Hp.
  destruct parsedData; try reflexivity; unfold member;
    match goal with
    | |- context [if ?b then _ else _] => destruct b; simpl; try reflexivity
    end;
    now destruct (MiddlewareB.validate _ _ _ _).
Qed.

(** With a 403 from the validation endpoint the second implementation
    returns nothing, whatever the rest of the request. *)
Theorem guardB_403_returns_nothing (rt : Runtime) (request : NextRequest)
        (parsedData : json) (e : Thrown) :
  under "/dashboard" (pathname request) = true ->
  carries rt request parsedData ->
  truthy (optional_member parsedData "access_token") = true ->
  truthy (optional_member parsedData "refresh_token") = true ->
  provider_get rt (validation_url rt)
    (MiddlewareB.validation_headers (optional_member parsedData "access_token"))
  = Rejects e ->
  http_status_of e = Some 403%Z ->
  result (guardB rt request) = ReturnsUndefined.
Proof.
  intros Hu Hc Ha Hr Ho He.
  rewrite guardB_protected, (middlewareB_parsed rt request parsedData)
    by assumption.
  destruct (truthy_member_object _ _ Ha) as [fields ->].
  rewrite Ha, Hr. simpl negb. simpl orb. cbv iota zeta.
  unfold MiddlewareB.validate, axios_get, bind. cbv zeta. rewrite Ho.
  destruct e as [m c r| |]; try discriminate He. simpl in He.
  unfold MiddlewareB.on_validation_error. simpl isAxiosError. cbv iota.
  now rewrite He.
Qed.

(** The second implementation does what the specification says of a
    cookie that lacks a token: it redirects to the login page and makes
    no provider call. *)
Theorem guardB_missing_token (rt : Runtime) (request : NextRequest)
        (parsedData : json) :
  under "/dashboard" (pathname request) = true ->
  carries rt request parsedData ->
  parsedData <> JNull ->
  truthy (optional_member parsedData "access_token") = false
  \/ truthy (optional_member parsedData "refresh_token") = false ->
  guardB rt request
  = ([CookieRead "oauth_data"],
     Returns (NextResponse_redirect (origin request ++ "/auth/login"))).
Proof.
  intros Hu Hc Hn H.
  rewrite guardB_protected, (middlewareB_parsed rt request parsedData)
    by assumption.
  assert (Hb : negb (truthy (optional_member parsedData "access_token"))
               || negb (truthy (optional_member parsedData "refresh_token"))
               = true)
    by (apply orb_true_iff; destruct H as [H|H]; rewrite H; auto).
  destruct parsedData; try contradiction; now rewrite Hb.
Qed.

(** The first implementation stops a cookie without an access token
    before any provider call. *)
Theorem guardA_missing_access_token (rt : Runtime) (request : NextRequest)
        (oauthData : json) :
  under "/dashboard" (pathname request) = true ->
  carries rt request oauthData ->
  truthy (optional_member oauthData "access_token") = false ->
  guardA rt request
  = ([CookieRead "oauth_data"],
     NextResponse_redirect (origin request ++ "/auth/login")).
Proof.
  intros Hu Hc Ha.
  rewrite guardA_protected, (middlewareA_parsed rt request oauthData)
    by assumption.
  now rewrite Ha.
Qed.

(** A protected request without a usable [oauth_data] cookie (absent,
    empty, or not JSON) is redirected to the login page by both
    implementations. *)
Theorem no_cookie_redirects_to_login (rt : Runtime) (request : NextRequest) :
  under "/dashboard" (pathname request) = true ->
  (forall text,
      assoc "oauth_data" (request_cookies request) = Some text ->
      text = EmptyString \/ JSON_parse rt text = None) ->
  result (guardA rt request)
  = NextResponse_redirect (origin request ++ "/auth/login")
  /\ result (guardB rt request)
     = Returns (NextResponse_redirect (origin request ++ "/auth/login")).
Proof.
  intros Hu H. rewrite guardA_protected, guardB_protected by assumption.
  destruct (assoc "oauth_data" (request_cookies request)) as [text|] eqn:Hc.
  - destruct (H text eq_refl) as [->|Hp].
    + rewrite middlewareA_no_cookie, middlewareB_no_cookie
        by (try assumption; now rewrite Hc).
      split; reflexivity.
    + rewrite (middlewareA_unparsable _ _ _ Hc Hp),
        (middlewareB_unparsable _ _ _ Hu Hc Hp).
      split; reflexivity.
  - rewrite middlewareA_no_cookie, middlewareB_no_cookie
      by (try assumption; now rewrite Hc).
    split; reflexivity.
Qed.

(** With both tokens in the cookie, the two implementations return the
    same response whenever the validation resolves, is rejected with a
    401, or fails with an exception that is not an axios error (the
    provider answering both validation calls alike). *)
Theorem implementations_agree (rt : Runtime) (request : NextRequest)
        (oauthData : json) :
  under "/dashboard" (pathname request) = true ->
  carries rt request oauthData ->
  truthy (optional_member oauthData "access_token") = true ->
  truthy (optional_member oauthData "refresh_token") = true ->
  provider_get rt (validation_url rt)
    (MiddlewareB.validation_headers (optional_member oauthData "access_token"))
  = validation_outcome rt oauthData ->
  match validation_outcome rt oauthData with
  | Resolves _ => True
  | Rejects e => http_status_of e = Some 401%Z \/ isAxiosError e = false
  end ->
  result (guardB rt request) = Returns (result (guardA rt request)).
Proof.
  intros Hu Hc Ha Hr Hsame Hclass.
  rewrite guardA_protected, guardB_protected,
    (middlewareA_parsed rt request oauthData),
    (middlewareB_parsed rt request oauthData) by assumption.
  destruct (truthy_member_object _ _ Ha) as [fields ->].
  rewrite Ha, Hr. simpl negb. simpl orb. cbv iota zeta.
  unfold MiddlewareB.validate, MiddlewareA.validate, axios_get, bind.
  cbv zeta. rewrite Hsame. unfold validation_outcome in Hclass |- *.
  destruct (provider_get rt _ _) as [d|e]; [reflexivity|].
  destruct Hclass as [H1|Hx].
  - destruct e as [m c r| |]; try discriminate H1. simpl in H1.
    unfold MiddlewareA.on_validation_error, MiddlewareB.on_validation_error.
    simpl isAxiosError. cbv iota.
    apply status_is_true in H1. rewrite H1.
    unfold MiddlewareA.refresh, MiddlewareB.refresh, axios_post, bind.
    cbv zeta.
    destruct (provider_post rt _ _ _) as [nt|e']; [|reflexivity].
    now destruct (member nt "expires_in").
  - destruct e as [m c r| |]; try discriminate Hx; reflexivity.
Qed.

(** The second implementation lets a path that does not start with
    [/dashboard] through by itself, before it reads the cookie. *)
Theorem middlewareB_unprotected_prefix (rt : Runtime) (request : NextRequest) :
  String.prefix "/dashboard" (pathname request) = false ->
  MiddlewareB.middleware rt request = ([], Returns NextResponse_next).
Proof.
  intros H. unfold MiddlewareB.middleware, MiddlewareB.protectedPaths.
  simpl existsb. now rewrite H.
Qed.

(** A valid access token lets the request through unmodified. *)
Theorem valid_token_passes_through (rt : Runtime) (request : NextRequest)
        (oauthData data : json) :
  under "/dashboard" (pathname request) = true ->
  carries rt request oauthData ->
  truthy (optional_member oauthData "access_token") = true ->
  validation_outcome rt oauthData = Resolves data ->
  result (guardA rt request) = NextResponse_next
  /\ network_calls (trace (guardA rt request))
     = [HttpGet (validation_url rt)
          (MiddlewareA.validation_headers
             (optional_member oauthData "access_token"))
          (Resolves data)].
Proof.
  intros Hu Hc Ha Ho.
  rewrite (guardA_validating rt request oauthData) by assumption.
  cbv zeta. rewrite validateA_outcome, Ho. cbv zeta.
  split; reflexivity.
Qed.

Lemma guardB_403_instance :
  result (guardB Runs.rt_403 Runs.with_bundle) = ReturnsUndefined.
Proof.
  eapply (guardB_403_returns_nothing Runs.rt_403 Runs.with_bundle
            (Demo.bundle 3600)).
  - reflexivity.
  - eexists. split; [reflexivity|split; [discriminate|reflexivity]].
  - reflexivity.
  - reflexivity.
  - reflexivity.
  - reflexivity.
Defined.

Lemma guardB_missing_token_instance :
  truthy (optional_member Demo.access_only "refresh_token") = false
  /\ guardB Runs.rt_valid Runs.without_refresh_token
     = ([CookieRead "oauth_data"],
        Returns (NextResponse_redirect
                   (origin Runs.without_refresh_token ++ "/auth/login"))).
Proof.
  split; [reflexivity|].
  apply (guardB_missing_token Runs.rt_valid Runs.without_refresh_token
           Demo.access_only).
  - reflexivity.
  - eexists. split; [reflexivity|split; [discriminate|reflexivity]].
  - discriminate.
  - right. reflexivity.
Defined.

Lemma guardA_missing_access_token_instance :
  guardA Runs.rt_valid (Demo.dashboard JNull)
  = ([CookieRead "oauth_data"],
     NextResponse_redirect (origin (Demo.dashboard JNull) ++ "/auth/login")).
Proof.
  apply (guardA_missing_access_token Runs.rt_valid (Demo.dashboard JNull) JNull).
  - reflexivity.
  - eexists. split; [reflexivity|split; [discriminate|reflexivity]].
  - reflexivity.
Defined.

Lemma no_cookie_instance :
  result (guardA Runs.rt_valid Runs.no_cookie)
  = NextResponse_redirect (origin Runs.no_cookie ++ "/auth/login")
  /\ result (guardB Runs.rt_valid Runs.no_cookie)
     = Returns (NextResponse_redirect (origin Runs.no_cookie ++ "/auth/login")).
Proof.
  apply (no_cookie_redirects_to_login Runs.rt_valid Runs.no_cookie).
  - reflexivity.
  - intros text H. discriminate H.
Defined.

Lemma implementations_agree_instance :
  result (guardB (Runs.rt_expired 7200) Runs.with_bundle)
  = Returns (result (guardA (Runs.rt_expired 7200) Runs.with_bundle)).
Proof.
  apply (implementations_agree (Runs.rt_expired 7200) Runs.with_bundle
           (Demo.bundle 3600)).
  - reflexivity.
  - eexists. split; [reflexivity|split; [discriminate|reflexivity]].
  - reflexivity.
  - reflexivity.
  - reflexivity.
  - left. reflexivity.
Defined.

Lemma middlewareB_unprotected_instance :
  MiddlewareB.middleware Runs.rt_valid Runs.login_page
  = ([], Returns NextResponse_next).
Proof.
  apply (middlewareB_unprotected_prefix Runs.rt_valid Runs.login_page).
  reflexivity.
Defined.

Lemma valid_token_instance :
  result (guardA Runs.rt_valid Runs.with_bundle) = NextResponse_next
  /\ network_calls (trace (guardA Runs.rt_valid Runs.with_bundle))
     = [HttpGet (validation_url Runs.rt_valid)
          (MiddlewareA.validation_headers
             (optional_member (Demo.bundle 3600) "access_token"))
          (Resolves (JObj [("id", JNum 1)]))].
Proof.
  apply (valid_token_passes_through Runs.rt_valid Runs.with_bundle
           (Demo.bundle 3600)).
  - reflexivity.
  - eexists. split; [reflexivity|split; [discriminate|reflexivity]].
  - reflexivity.
  - reflexivity.
Defined.

(** ** The guard's runs in full *)

Lemma middlewareA_validated (rt : Runtime) (request : NextRequest) (oauthData : json) :
  carries rt request oauthData ->
  truthy (optional_member oauthData "access_token") = true ->
  MiddlewareA.middleware rt request
  = match validation_outcome rt oauthData with
    | Resolves _ =>
        ([CookieRead "oauth_data"; validation_call rt oauthData],
         NextResponse_next)
    | Rejects e =>
        if status_is (http_status_of e) 401
        then
          ([CookieRead "oauth_data"; validation_call rt oauthData;
            refresh_call rt oauthData],
           match refresh_outcome rt oauthData with
           | Resolves newTokens =>
               match member newTokens "expires_in" with
               | Some expires_in =>
                   cookies_set NextResponse_next "oauth_data"
                     (JSON_stringify rt newTokens)
                     (refreshed_cookie_options rt expires_in)
               | None => redirect_login request
               end
           | Rejects _ => redirect_login request
           end)
        else
          ([CookieRead "oauth_data"; validation_call rt oauthData],
           if status_is (http_status_of e) 403
           then redirect_forbidden request
           else redirect_login request)
    end.
Proof.
  intros Hc Ha.
  rewrite (middlewareA_parsed rt request oauthData Hc), Ha.
  cbv zeta. rewrite validateA_outcome. cbv zeta. unfold validation_call.
  destruct (validation_outcome rt oauthData) as [d|e]; [reflexivity|].
  destruct (status_is (http_status_of e) 401) eqn:H1.
  - apply status_is_true in H1.
    rewrite on_validation_errorA_401, refreshA_outcome by assumption.
    reflexivity.
  - apply status_is_false in H1.
    destruct (status_is (http_status_of e) 403) eqn:H3.
    + apply status_is_true in H3.
      now rewrite on_validation_errorA_403.
    + apply status_is_false in H3.
      now rewrite on_validation_errorA_other.
Qed.

Lemma middlewareA_cases (rt : Runtime) (request : NextRequest) :
  MiddlewareA.middleware rt request
  = ([CookieRead "oauth_data"], redirect_login request)
  \/ exists oauthData,
      carries rt request oauthData
      /\ truthy (optional_member oauthData "access_token") = true.
Proof.
  destruct (truthy_str (assoc "oauth_data" (request_cookies request))) eqn:Hc.
  2: left; now apply middlewareA_no_cookie.
  apply truthy_str_true in Hc as (text & Hc & Hne).
  destruct (JSON_parse rt text) as [oauthData|] eqn:Hp.
  2: left; now apply (middlewareA_unparsable _ _ text).
  assert (Hcar : carries rt request oauthData) by (exists text; auto).
  destruct (truthy (optional_member oauthData "access_token")) eqn:Ha.
  - right. now exists oauthData.
  - left. now rewrite (middlewareA_parsed rt request oauthData Hcar), Ha.
Qed.

(** An expired access token with a working refresh token: the guard
    validates, is told 401, posts the cookie's refresh token to the token
    endpoint once, and lets the request through with the [oauth_data]
    cookie rewritten to the new bundle. *)
Theorem expired_token_is_refreshed (rt : Runtime) (request : NextRequest)
        (oauthData newTokens : json) (e : Thrown) :
  under "/dashboard" (pathname request) = true ->
  carries rt request oauthData ->
  truthy (optional_member oauthData "access_token") = true ->
  validation_outcome rt oauthData = Rejects e ->
  http_status_of e = Some 401%Z ->
  refresh_outcome rt oauthData = Resolves newTokens ->
  newTokens <> JNull ->
  guardA rt request
  = ([CookieRead "oauth_data";
      HttpGet (validation_url rt)
        (MiddlewareA.validation_headers
           (optional_member oauthData "access_token"))
        (Rejects e);
      HttpPost (refresh_url rt)
        (refresh_params rt (optional_member oauthData "refresh_token"))
        form_headers (Resolves newTokens)],
     {| kind := Next;
        cookies := [CookieSet "oauth_data" (JSON_stringify rt newTokens)
                      (refreshed_cookie_options rt
                         (optional_member newTokens "expires_in"))] |}).
Proof.
  intros Hu Hc Ha Hv H401 Hr Hn.
  rewrite guardA_protected, (middlewareA_validated rt request oauthData)
    by assumption.
  unfold validation_call, refresh_call. rewrite Hv, Hr.
  apply status_is_true in H401. rewrite H401.
  rewrite (member_not_null _ _ Hn). reflexivity.
Qed.

(** A refresh that fails, by a rejection of any kind or by a response
    whose body is [null], ends in the redirect to the login page; no
    cookie is written and nothing is retried. *)
Theorem failed_refresh_redirects_to_login (rt : Runtime) (request : NextRequest)
        (oauthData : json) (e : Thrown) :
  under "/dashboard" (pathname request) = true ->
  carries rt request oauthData ->
  truthy (optional_member oauthData "access_token") = true ->
  validation_outcome rt oauthData = Rejects e ->
  http_status_of e = Some 401%Z ->
  (refresh_outcome rt oauthData = Resolves JNull
   \/ exists e', refresh_outcome rt oauthData = Rejects e') ->
  result (guardA rt request)
  = {| kind := Redirect (origin request ++ "/auth/login"); cookies := [] |}
  /\ network_calls (trace (guardA rt request))
     = [validation_call rt oauthData; refresh_call rt oauthData].
Proof.
  intros Hu Hc Ha Hv H401 Hr.
  rewrite guardA_protected, (middlewareA_validated rt request oauthData)
    by assumption.
  rewrite Hv. apply status_is_true in H401. rewrite H401.
  unfold result, trace, fst, snd.
  split; [|reflexivity].
  destruct Hr as [Hr|[e' Hr]]; rewrite Hr; reflexivity.
Qed.

(** The tokens go to the provider only: every call the guard makes is
    the validation GET of [{API_URL}/api/user/show] with the cookie's
    access token as bearer, or the refresh POST to [{API_URL}/oauth/token]
    with the cookie's refresh token; the latter only after a 401. *)
Theorem guard_calls_only_provider_endpoints (rt : Runtime) (request : NextRequest)
        (ev : Event) :
  In ev (trace (MiddlewareA.middleware rt request)) ->
  is_network_call ev = true ->
  exists oauthData,
    carries rt request oauthData
    /\ truthy (optional_member oauthData "access_token") = true
    /\ (ev = validation_call rt oauthData
        \/ (ev = refresh_call rt oauthData
            /\ exists e, validation_outcome rt oauthData = Rejects e
                         /\ http_status_of e = Some 401%Z)).
Proof.
  intros Hin Hnet.
  destruct (middlewareA_cases rt request) as [Hrun|(oauthData & Hc & Ha)].
  - rewrite Hrun in Hin. destruct Hin as [<-|[]]. discriminate Hnet.
  - exists oauthData. split; [assumption|split; [assumption|]].
    rewrite (middlewareA_validated rt request oauthData Hc Ha) in Hin.
    destruct (validation_outcome rt oauthData) as [d|e] eqn:Hv.
    + destruct Hin as [<-|[<-|[]]]; [discriminate Hnet|now left].
    + destruct (status_is (http_status_of e) 401) eqn:H1.
      * apply status_is_true in H1.
        destruct Hin as [<-|[<-|[<-|[]]]];
          [discriminate Hnet|now left|right].
        split; [reflexivity|]. now exists e.
      * destruct Hin as [<-|[<-|[]]]; [discriminate Hnet|now left].
Qed.

(** What the guard can answer: the pass-through, with no cookie or with
    exactly one [oauth_data] cookie, or a redirect that carries no cookie
    and stays on the origin of the request, to [/auth/login] or to
    [/auth/forbidden]. *)
Theorem guard_response_shape (rt : Runtime) (request : NextRequest) :
  (kind (result (MiddlewareA.middleware rt request)) = Next
   /\ (cookies (result (MiddlewareA.middleware rt request)) = []
       \/ exists v o,
           cookies (result (MiddlewareA.middleware rt request))
           = [CookieSet "oauth_data" v o]))
  \/ (cookies (result (MiddlewareA.middleware rt request)) = []
      /\ (kind (result (MiddlewareA.middleware rt request))
          = Redirect (origin request ++ "/auth/login")
          \/ kind (result (MiddlewareA.middleware rt request))
             = Redirect (origin request ++ "/auth/forbidden"))).
Proof.
  destruct (middlewareA_runs rt request); unfold result, snd; simpl.
  - right. split; [reflexivity|now left].
  - left. split; [reflexivity|now left].
  - right. split; [reflexivity|now right].
  - right. split; [reflexivity|now left].
  - left. split; [reflexivity|right]. now eexists; eexists.
  - right. split; [reflexivity|now left].
Qed.

(** A cookie without a refresh token whose access token has expired: the
    guard still posts to the token endpoint, with the literal text
    [undefined] as the refresh token. *)
Theorem missing_refresh_token_posts_undefined (rt : Runtime) (request : NextRequest)
        (oauthData : json) (e : Thrown) :
  under "/dashboard" (pathname request) = true ->
  carries rt request oauthData ->
  truthy (optional_member oauthData "access_token") = true ->
  optional_member oauthData "refresh_token" = undefined ->
  validation_outcome rt oauthData = Rejects e ->
  http_status_of e = Some 401%Z ->
  exists o,
    In (HttpPost (refresh_url rt)
          [("grant_type", "refresh_token"); ("refresh_token", "undefined");
           ("client_id",
            nullish (NEXT_PUBLIC_OAUTH_CLIENT_ID (process_env rt)) EmptyString)]
          form_headers o)
       (trace (guardA rt request)).
Proof.
  intros Hu Hc Ha Hr Hv H401.
  rewrite guardA_protected, (middlewareA_validated rt request oauthData)
    by assumption.
  rewrite Hv. apply status_is_true in H401. rewrite H401.
  exists (refresh_outcome rt oauthData).
  unfold trace, fst, refresh_call, refresh_params. rewrite Hr.
  right. right. left. reflexivity.
Qed.

(** ** The callback handler in full *)

Lemma callback_exchanged (rt : Runtime) (request : Callback.Request)
      (code verifier tokenUrl : string) :
  assoc "code" (Callback.searchParams request) = Some code ->
  code <> EmptyString ->
  assoc "pkce_verifier" (Callback.cookieStore request) = Some verifier ->
  verifier <> EmptyString ->
  NEXT_PUBLIC_OAUTH_TOKEN_URL (process_env rt) = Some tokenUrl ->
  tokenUrl <> EmptyString ->
  Callback.GET rt request
  = let o := provider_post rt tokenUrl
               (Callback.token_params rt code verifier) form_headers in
    ([CookieRead "pkce_verifier";
      HttpPost tokenUrl (Callback.token_params rt code verifier) form_headers o],
     match o with
     | Rejects e => NextResponse_json (Callback.error_payload rt e) 500
     | Resolves data =>
         match redirect_raises rt (Callback.dashboard_url rt) with
         | Some e => NextResponse_json (Callback.error_payload rt e) 500
         | None => Callback.success rt data
         end
     end).
Proof.
  intros Hc Hcn Hv Hvn Hu Hun.
  unfold Callback.GET, cookies_get, bind.
  rewrite Hc, Hv, !truthy_str_some by assumption. simpl.
  unfold Callback.exchange, axios_post, bind.
  rewrite Hu, truthy_str_some by assumption. simpl.
  destruct (provider_post rt tokenUrl _ _) as [data|e]; simpl;
    [|reflexivity].
  now destruct (redirect_raises rt (Callback.dashboard_url rt)).
Qed.

Lemma callback_cases (rt : Runtime) (request : Callback.Request) :
  trace (Callback.GET rt request) = [CookieRead "pkce_verifier"]
  \/ exists code verifier tokenUrl,
      assoc "code" (Callback.searchParams request) = Some code
      /\ code <> EmptyString
      /\ assoc "pkce_verifier" (Callback.cookieStore request) = Some verifier
      /\ verifier <> EmptyString
      /\ NEXT_PUBLIC_OAUTH_TOKEN_URL (process_env rt) = Some tokenUrl
      /\ tokenUrl <> EmptyString.
Proof.
  destruct (truthy_str (assoc "code" (Callback.searchParams request))) eqn:Hc.
  2: { left. unfold Callback.GET, cookies_get, bind. now rewrite Hc. }
  destruct (truthy_str (assoc "pkce_verifier" (Callback.cookieStore request)))
    eqn:Hv.
  2: { left. unfold Callback.GET, cookies_get, bind. now rewrite Hc, Hv. }
  destruct (truthy_str (NEXT_PUBLIC_OAUTH_TOKEN_URL (process_env rt))) eqn:Hu.
  2: { left. unfold Callback.GET, cookies_get, bind. rewrite Hc, Hv. simpl.
       unfold Callback.exchange. now rewrite Hu. }
  right.
  apply truthy_str_true in Hc as (code & Hc & Hcn).
  apply truthy_str_true in Hv as (verifier & Hv & Hvn).
  apply truthy_str_true in Hu as (tokenUrl & Hu & Hun).
  exists code, verifier, tokenUrl. auto 10.
Qed.

(** The callback makes at most one provider call, and only when the code,
    the verifier and the token URL are all present and not empty: a POST
    to the configured token URL whose form carries the code and the
    verifier as they came in, with [grant_type=authorization_code]. *)
Theorem callback_contacts_only_token_endpoint (rt : Runtime)
        (request : Callback.Request) :
  (length (network_calls (trace (Callback.GET rt request))) <= 1)%nat
  /\ forall ev,
      In ev (trace (Callback.GET rt request)) ->
      is_network_call ev = true ->
      exists code verifier tokenUrl o,
        assoc "code" (Callback.searchParams request) = Some code
        /\ code <> EmptyString
        /\ assoc "pkce_verifier" (Callback.cookieStore request) = Some verifier
        /\ verifier <> EmptyString
        /\ NEXT_PUBLIC_OAUTH_TOKEN_URL (process_env rt) = Some tokenUrl
        /\ tokenUrl <> EmptyString
        /\ ev = HttpPost tokenUrl
                  [("grant_type", "authorization_code");
                   ("client_id",
                    nullish (NEXT_PUBLIC_OAUTH_CLIENT_ID (process_env rt))
                            EmptyString);
                   ("redirect_uri",
                    nullish (NEXT_PUBLIC_OAUTH_REDIRECT_URI (process_env rt))
                            EmptyString);
                   ("code", code);
                   ("code_verifier", verifier)]
                  form_headers o.
Proof.
  destruct (callback_cases rt request)
    as [Ht|(code & verifier & tokenUrl & Hc & Hcn & Hv & Hvn & Hu & Hun)].
  - rewrite Ht. split; [simpl; lia|].
    intros ev [<-|[]] Hnet. discriminate Hnet.
  - rewrite (callback_exchanged rt request code verifier tokenUrl)
      by assumption.
    cbv zeta. unfold trace, fst. split; [simpl; lia|].
    intros ev [<-|[<-|[]]] Hnet; [discriminate Hnet|].
    exists code, verifier, tokenUrl. eexists.
    repeat (split; [assumption|]). reflexivity.
Qed.

Lemma production_payload_has_no_stack (rt : Runtime) (e : Thrown) :
  NODE_ENV (process_env rt) = Some "production" ->
  stack (Callback.error_payload rt e) = None.
Proof.
  intros H. destruct e; simpl; try reflexivity. now rewrite H.
Qed.

(** In production no response of the callback carries a stack trace,
    whatever fails. *)
Theorem callback_production_hides_stack (rt : Runtime)
        (request : Callback.Request) (p : OAuthErrorPayload) (st : Z) :
  NODE_ENV (process_env rt) = Some "production" ->
  kind (result (Callback.GET rt request)) = Json p st ->
  stack p = None.
Proof.
  intros Hprod Hk.
  destruct (callback_runs rt request);
    unfold result, snd, NextResponse_json in Hk; cbn [kind] in Hk.
  - injection Hk as <- _. reflexivity.
  - injection Hk as <- _. simpl. now rewrite Hprod.
  - injection Hk as <- _.
    apply (production_payload_has_no_stack rt e Hprod).
  - injection Hk as <- _.
    apply (production_payload_has_no_stack rt e Hprod).
  - discriminate Hk.
Qed.

(** Without a token URL (unset or empty) a request that has a code and a
    verifier is answered 500 with the message [Token URL not defined];
    the provider is not contacted and no cookie is touched. *)
Theorem callback_token_url_unset (rt : Runtime) (request : Callback.Request) :
  ~ missing (assoc "code" (Callback.searchParams request)) ->
  ~ missing (assoc "pkce_verifier" (Callback.cookieStore request)) ->
  missing (NEXT_PUBLIC_OAUTH_TOKEN_URL (process_env rt)) ->
  trace (Callback.GET rt request) = [CookieRead "pkce_verifier"]
  /\ cookies (result (Callback.GET rt request)) = []
  /\ exists p,
      kind (result (Callback.GET rt request)) = Json p 500
      /\ error p = "OAuth Error"
      /\ message p = Some "Token URL not defined"
      /\ name p = Some "Error".
Proof.
  intros Hc Hv Hu.
  apply truthy_str_not_missing in Hc, Hv. apply truthy_str_false in Hu.
  unfold Callback.GET, cookies_get, bind. rewrite Hc, Hv. simpl.
  unfold Callback.exchange. rewrite Hu. simpl.
  split; [reflexivity|split; [reflexivity|]].
  eexists. split; [reflexivity|]. simpl. auto.
Qed.

(** A rejection by the token endpoint is surfaced: status 500, the axios
    message and code, the provider's HTTP status and its response body as
    [details] ([null] when there was no response), and neither a stack nor
    a name. *)
Theorem callback_provider_error_surfaces (rt : Runtime)
        (request : Callback.Request) (url : string) (body : URLSearchParams)
        (hd : Headers) (m : string) (c : option string)
        (response : option (Z * json)) :
  In (HttpPost url body hd (Rejects (AxiosError m c response)))
     (trace (Callback.GET rt request)) ->
  result (Callback.GET rt request)
  = {| kind :=
         Json {| error := "OAuth Error";
                 message := Some m;
                 code := c;
                 status := option_map fst response;
                 details := Some (match response with
                                  | Some (_, d) => d
                                  | None => JNull
                                  end);
                 stack := None;
                 name := None |} 500;
       cookies := [] |}.
Proof.
  intros Hin.
  destruct (callback_runs rt request); unfold trace, result, fst, snd in *;
    simpl in Hin;
    repeat (destruct Hin as [Hin|Hin]; try discriminate Hin);
    try contradiction.
  injection Hin as -> -> -> ->. reflexivity.
Qed.

(** ** From the initiator to the callback *)

(** The verifier the initiator stores is the one the callback redeems:
    when the browser comes back with the cookie the initiator set and a
    code, the callback posts that verifier as [code_verifier], and the
    challenge the initiator put in its redirect is the challenge of that
    same verifier, announced as [S256]. *)
Theorem login_round_trip (lib : Start.PkceLib) (rt : Runtime)
        (request : Callback.Request) (v code tokenUrl : string)
        (o : CookieOptions) :
  In (CookieSet "pkce_verifier" v o) (Start.stored (Start.GET lib)) ->
  assoc "pkce_verifier" (Callback.cookieStore request) = Some v ->
  v <> EmptyString ->
  assoc "code" (Callback.searchParams request) = Some code ->
  code <> EmptyString ->
  NEXT_PUBLIC_OAUTH_TOKEN_URL (process_env rt) = Some tokenUrl ->
  tokenUrl <> EmptyString ->
  Start.redirect_to (Start.GET lib)
  = "http://localhost:8000/start-pkce?"
    ++ Start.URLSearchParams_toString lib
         [("code_challenge", Start.generateCodeChallenge lib v);
          ("code_challenge_method", "S256")]
  /\ exists body outcome,
      network_calls (trace (Callback.GET rt request))
      = [HttpPost tokenUrl body form_headers outcome]
      /\ assoc "code_verifier" body = Some v
      /\ assoc "code" body = Some code
      /\ assoc "grant_type" body = Some "authorization_code".
Proof.
  intros Hset Hv Hvn Hc Hcn Hu Hun.
  destruct Hset as [[= <- <-]|[]].
  split; [reflexivity|].
  rewrite (callback_exchanged rt request code
             (Start.generateCodeVerifier lib) tokenUrl) by assumption.
  cbv zeta. eexists. eexists. split; [reflexivity|].
  repeat split.
Qed.

(** ** The second implementation in full *)

Lemma middlewareB_runs (rt : Runtime) (request : NextRequest) :
  GuardRunB rt request (MiddlewareB.middleware rt request).
Proof.
  unfold MiddlewareB.middleware, MiddlewareB.protectedPaths.
  simpl existsb. rewrite orb_false_r.
  destruct (String.prefix "/dashboard" (pathname request)) eqn:Hp;
    [|now apply RunB_unprotected].
  simpl negb. cbv iota. unfold cookies_get, bind.
  destruct (truthy_str (assoc "oauth_data" (request_cookies request)));
    [|apply RunB_no_token].
  simpl negb. cbv iota.
  destruct (JSON_parse rt _) as [parsedData|]; [|apply RunB_no_token].
  destruct (member parsedData "access_token") as [access_token|] eqn:Ha.
  2: { destruct (member parsedData "refresh_token"); apply RunB_null. }
  destruct (member parsedData "refresh_token") as [refresh_token|];
    [|apply RunB_null].
  destruct (negb (truthy access_token) || negb (truthy refresh_token));
    [apply RunB_no_token|].
  unfold MiddlewareB.validate, axios_get, bind. cbv zeta.
  destruct (provider_get rt _ _) as [d|e]; [apply RunB_allowed|].
  unfold MiddlewareB.on_validation_error.
  destruct e as [m c r|n m st|shown]; simpl isAxiosError; cbv iota;
    [|now apply RunB_denied..].
  destruct (status_is (response_status r) 401) eqn:H1.
  - apply status_is_true in H1.
    unfold MiddlewareB.refresh, axios_post, bind. cbv zeta.
    destruct (provider_post rt _ _ _) as [newTokens|e'].
    + destruct (member newTokens "expires_in") as [x|] eqn:Hm.
      * now apply RunB_refreshed.
      * now apply RunB_refresh_failed.
    + now apply RunB_refresh_failed.
  - apply status_is_false in H1. now apply RunB_fell_through.
Qed.

(** A cookie whose text is the JSON [null] makes the second
    implementation throw a [TypeError] that nothing catches, before any
    provider call. *)
Theorem guardB_null_cookie_throws (rt : Runtime) (request : NextRequest) :
  under "/dashboard" (pathname request) = true ->
  carries rt request JNull ->
  guardB rt request = ([CookieRead "oauth_data"], Uncaught "TypeError").
Proof.
  intros Hu Hc.
  now rewrite guardB_protected, (middlewareB_parsed rt request JNull)
    by assumption.
Qed.

(** The second implementation ends without a response exactly when its
    validation call was rejected by an axios error whose status is not
    401 (a 403, a 500, no response at all); nothing else was called. *)
Theorem middlewareB_returns_nothing_iff (rt : Runtime) (request : NextRequest) :
  result (MiddlewareB.middleware rt request) = ReturnsUndefined
  <-> exists url hd e,
      trace (MiddlewareB.middleware rt request)
      = [CookieRead "oauth_data"; HttpGet url hd (Rejects e)]
      /\ isAxiosError e = true
      /\ http_status_of e <> Some 401%Z.
Proof.
  destruct (middlewareB_runs rt request)
    as [ | | | | url hd e Hax H401 | url hd e Hax | | ];
    unfold trace, result, fst, snd; split;
    try discriminate;
    try (intros (u & h & e' & Ht & _); discriminate Ht).
  - intros _. now exists url, hd, e.
  - reflexivity.
  - intros (u & h & e' & [= _ _ <-] & Hax' & _). congruence.
Qed.

(** The second implementation never sends anyone to [/auth/forbidden]:
    a response it returns is the pass-through or the redirect to the
    login page of the request's origin. *)
Theorem middlewareB_never_forbidden (rt : Runtime) (request : NextRequest)
        (r : NextResponse) :
  result (MiddlewareB.middleware rt request) = Returns r ->
  kind r = Next \/ kind r = Redirect (origin request ++ "/auth/login").
Proof.
  destruct (middlewareB_runs rt request); unfold result, snd;
    intros Hr; try discriminate Hr; injection Hr as <-; auto.
Qed.

(** ** The session cookie *)

(** Every cookie either handler writes is http-only, [SameSite=Lax], on
    path [/]. The guard's is secure exactly in production and always has
    a max-age; the callback's is never secure and never has a max-age. *)
Theorem session_cookie_attributes (rt : Runtime) (request : NextRequest)
        (callback : Callback.Request) :
  (forall n v o,
      In (CookieSet n v o) (cookies (result (MiddlewareA.middleware rt request))) ->
      httpOnly o = true /\ sameSite o = "lax" /\ path o = "/"
      /\ (secure o = true <-> NODE_ENV (process_env rt) = Some "production")
      /\ truthy (maxAge o) = true)
  /\ (forall n v o,
        In (CookieSet n v o) (cookies (result (Callback.GET rt callback))) ->
        httpOnly o = true /\ sameSite o = "lax" /\ path o = "/"
        /\ secure o = false /\ maxAge o = undefined).
Proof.
  split.
  - destruct (middlewareA_runs rt request); unfold result, snd; simpl;
      intros n v opts Hin; try contradiction.
    destruct Hin as [[= _ _ <-]|[]]. simpl.
    repeat (split; [reflexivity|]). split.
    + destruct (NODE_ENV (process_env rt)) as [env|]; [|split; discriminate].
      rewrite String.eqb_eq. split; [now intros ->|now intros [= ->]].
    + unfold js_or. now destruct (truthy expires_in) eqn:E.
  - destruct (callback_runs rt callback); unfold result, snd; simpl;
      intros n v opts Hin; try contradiction.
    destruct Hin as [[= _ _ <-]|[Hin|[]]]; [|discriminate Hin].
    repeat split.
Qed.

(** ** From one request to the next *)

(** The cookie the callback writes is the one the guard reads: on the
    next request to a protected path that carries it, the guard validates
    with the access token of the very bundle the token endpoint returned
    (the codec reading back what it wrote). *)
Theorem callback_cookie_is_validated (rt : Runtime) (callback : Callback.Request)
        (request : NextRequest) (url : string) (body : URLSearchParams)
        (hd : Headers) (data : json) (v : string) (o : CookieOptions) :
  In (HttpPost url body hd (Resolves data)) (trace (Callback.GET rt callback)) ->
  In (CookieSet "oauth_data" v o) (cookies (result (Callback.GET rt callback))) ->
  assoc "oauth_data" (request_cookies request) = Some v ->
  JSON_parse rt (JSON_stringify rt data) = Some data ->
  JSON_stringify rt data <> EmptyString ->
  under "/dashboard" (pathname request) = true ->
  truthy (optional_member data "access_token") = true ->
  exists rest,
    trace (guardA rt request)
    = CookieRead "oauth_data"
      :: HttpGet (validation_url rt)
           [("Authorization",
             "Bearer " ++ js_String (optional_member data "access_token"));
            ("Accept", "application/json")]
           (validation_outcome rt data)
      :: rest.
Proof.
  intros Hpost Hset Hcookie Hcodec Hne Hu Ha.
  assert (Hv : v = JSON_stringify rt data).
  { destruct (callback_runs rt callback);
      unfold trace, result, fst, snd in *; simpl in Hset, Hpost;
      try contradiction.
    destruct Hpost as [Hpost|[Hpost|[]]]; [discriminate Hpost|].
    injection Hpost as _ _ _ ->.
    destruct Hset as [[= <- _]|[Hset|[]]]; [reflexivity|discriminate Hset]. }
  subst v.
  assert (Hc : carries rt request data)
    by (exists (JSON_stringify rt data); auto).
  rewrite guardA_protected, (middlewareA_validated rt request data)
    by assumption.
  unfold validation_call, MiddlewareA.validation_headers.
  destruct (validation_outcome rt data) as [d|e]; [now eexists|].
  destruct (status_is (http_status_of e) 401); now eexists.
Qed.

(** The cookie a refresh writes is read back the same way: the next
    protected request that carries it is validated with the access token
    of the refreshed bundle. *)
Theorem refreshed_cookie_is_validated (rt : Runtime) (first next : NextRequest)
        (url : string) (body : URLSearchParams) (hd : Headers)
        (newTokens : json) (v : string) (o : CookieOptions) :
  In (HttpPost url body hd (Resolves newTokens))
     (trace (MiddlewareA.middleware rt first)) ->
  In (CookieSet "oauth_data" v o)
     (cookies (result (MiddlewareA.middleware rt first))) ->
  assoc "oauth_data" (request_cookies next) = Some v ->
  JSON_parse rt (JSON_stringify rt newTokens) = Some newTokens ->
  JSON_stringify rt newTokens <> EmptyString ->
  under "/dashboard" (pathname next) = true ->
  truthy (optional_member newTokens "access_token") = true ->
  exists rest,
    trace (guardA rt next)
    = CookieRead "oauth_data"
      :: HttpGet (validation_url rt)
           [("Authorization",
             "Bearer " ++ js_String (optional_member newTokens "access_token"));
            ("Accept", "application/json")]
           (validation_outcome rt newTokens)
      :: rest.
Proof.
  intros Hpost Hset Hcookie Hcodec Hne Hu Ha.
  assert (Hv : v = JSON_stringify rt newTokens).
  { destruct (middlewareA_runs rt first);
      unfold trace, result, fst, snd in *; simpl in Hset, Hpost;
      try contradiction.
    destruct Hpost as [Hpost|[Hpost|[Hpost|[]]]]; try discriminate Hpost.
    injection Hpost as _ _ _ ->.
    destruct Hset as [[= <- _]|[]]. reflexivity. }
  subst v.
  assert (Hc : carries rt next newTokens)
    by (exists (JSON_stringify rt newTokens); auto).
  rewrite guardA_protected, (middlewareA_validated rt next newTokens)
    by assumption.
  unfold validation_call, MiddlewareA.validation_headers.
  destruct (validation_outcome rt newTokens) as [d|e]; [now eexists|].
  destruct (status_is (http_status_of e) 401); now eexists.
Qed.

(** ** Instances of the further theorems *)

Lemma carries_demo (on_get on_post : AxiosOutcome) (cookie : json) :
  Demo.parse Demo.known (Demo.stringify cookie) = Some cookie ->
  Demo.stringify cookie <> EmptyString ->
  carries (Demo.runtime on_get on_post) (Demo.dashboard cookie) cookie.
Proof.
  intros Hp Hne. exists (Demo.stringify cookie).
  split; [reflexivity|split; assumption].
Defined.

Lemma expired_token_instance :
  guardA (Runs.rt_expired 7200) Runs.with_bundle
  = ([CookieRead "oauth_data";
      HttpGet (validation_url (Runs.rt_expired 7200))
        (MiddlewareA.validation_headers
           (optional_member (Demo.bundle 3600) "access_token"))
        (Demo.http_error 401);
      HttpPost (refresh_url (Runs.rt_expired 7200))
        (refresh_params (Runs.rt_expired 7200)
           (optional_member (Demo.bundle 3600) "refresh_token"))
        form_headers (Resolves (Demo.bundle 7200))],
     {| kind := Next;
        cookies := [CookieSet "oauth_data"
                      (JSON_stringify (Runs.rt_expired 7200) (Demo.bundle 7200))
                      (refreshed_cookie_options (Runs.rt_expired 7200)
                         (optional_member (Demo.bundle 7200) "expires_in"))] |}).
Proof.
  apply (expired_token_is_refreshed (Runs.rt_expired 7200) Runs.with_bundle
           (Demo.bundle 3600) (Demo.bundle 7200)).
  - reflexivity.
  - apply carries_demo; [reflexivity|discriminate].
  - reflexivity.
  - reflexivity.
  - reflexivity.
  - reflexivity.
  - discriminate.
Defined.

Lemma failed_refresh_instance :
  result (guardA Samples.rt_refresh_rejected Runs.with_bundle)
  = {| kind := Redirect (origin Runs.with_bundle ++ "/auth/login");
       cookies := [] |}
  /\ network_calls (trace (guardA Samples.rt_refresh_rejected Runs.with_bundle))
     = [validation_call Samples.rt_refresh_rejected (Demo.bundle 3600);
        refresh_call Samples.rt_refresh_rejected (Demo.bundle 3600)].
Proof.
  eapply (failed_refresh_redirects_to_login Samples.rt_refresh_rejected
            Runs.with_bundle (Demo.bundle 3600)).
  - reflexivity.
  - apply carries_demo; [reflexivity|discriminate].
  - reflexivity.
  - reflexivity.
  - reflexivity.
  - right. eexists. reflexivity.
Defined.

Lemma guard_calls_instance :
  exists oauthData,
    carries Runs.rt_valid Runs.with_bundle oauthData
    /\ truthy (optional_member oauthData "access_token") = true
    /\ (validation_call Runs.rt_valid (Demo.bundle 3600)
        = validation_call Runs.rt_valid oauthData
        \/ (validation_call Runs.rt_valid (Demo.bundle 3600)
            = refresh_call Runs.rt_valid oauthData
            /\ exists e, validation_outcome Runs.rt_valid oauthData = Rejects e
                         /\ http_status_of e = Some 401%Z)).
Proof.
  apply (guard_calls_only_provider_endpoints Runs.rt_valid Runs.with_bundle
           (validation_call Runs.rt_valid (Demo.bundle 3600))).
  - right. left. reflexivity.
  - reflexivity.
Defined.

Lemma missing_refresh_token_instance :
  exists o,
    In (HttpPost (refresh_url Samples.rt_refresh_rejected)
          [("grant_type", "refresh_token"); ("refresh_token", "undefined");
           ("client_id",
            nullish (NEXT_PUBLIC_OAUTH_CLIENT_ID
                       (process_env Samples.rt_refresh_rejected)) EmptyString)]
          form_headers o)
       (trace (guardA Samples.rt_refresh_rejected Runs.without_refresh_token)).
Proof.
  eapply (missing_refresh_token_posts_undefined Samples.rt_refresh_rejected
            Runs.without_refresh_token Demo.access_only).
  - reflexivity.
  - apply carries_demo; [reflexivity|discriminate].
  - reflexivity.
  - reflexivity.
  - reflexivity.
  - reflexivity.
Defined.

Lemma production_hides_stack_instance :
  NODE_ENV (process_env Samples.rt_crash) = Some "production"
  /\ stack (Callback.error_payload Samples.rt_crash Samples.crash) = None.
Proof.
  split; [reflexivity|].
  apply (callback_production_hides_stack Samples.rt_crash Samples.returning
           (Callback.error_payload Samples.rt_crash Samples.crash) 500).
  - reflexivity.
  - reflexivity.
Defined.

Lemma token_url_unset_instance :
  trace (Callback.GET Samples.rt_unconfigured Samples.returning)
  = [CookieRead "pkce_verifier"]
  /\ cookies (result (Callback.GET Samples.rt_unconfigured Samples.returning))
     = []
  /\ exists p,
      kind (result (Callback.GET Samples.rt_unconfigured Samples.returning))
      = Json p 500
      /\ error p = "OAuth Error"
      /\ message p = Some "Token URL not defined"
      /\ name p = Some "Error".
Proof.
  apply (callback_token_url_unset Samples.rt_unconfigured Samples.returning).
  - intros [H|H]; discriminate H.
  - intros [H|H]; discriminate H.
  - left. reflexivity.
Defined.

Lemma provider_error_instance :
  result (Callback.GET Samples.rt_rejected Samples.returning)
  = {| kind :=
         Json {| error := "OAuth Error";
                 message := Some "Request failed";
                 code := Some "ERR_BAD_REQUEST";
                 status := option_map fst
                             (Some (400%Z, JObj [("message", JStr "denied")]));
                 details := Some (JObj [("message", JStr "denied")]);
                 stack := None;
                 name := None |} 500;
       cookies := [] |}.
Proof.
  eapply (callback_provider_error_surfaces Samples.rt_rejected Samples.returning
            _ _ _ "Request failed" (Some "ERR_BAD_REQUEST")
            (Some (400%Z, JObj [("message", JStr "denied")]))).
  right. left. reflexivity.
Defined.

Lemma login_round_trip_instance :
  Start.redirect_to (Start.GET Samples.lib)
  = "http://localhost:8000/start-pkce?"
    ++ Start.URLSearchParams_toString Samples.lib
         [("code_challenge",
           Start.generateCodeChallenge Samples.lib "verifier-1");
          ("code_challenge_method", "S256")]
  /\ exists body outcome,
      network_calls (trace (Callback.GET Samples.rt_login Samples.returning))
      = [HttpPost "https://api.example.com/oauth/token" body form_headers
           outcome]
      /\ assoc "code_verifier" body = Some "verifier-1"
      /\ assoc "code" body = Some "code-1"
      /\ assoc "grant_type" body = Some "authorization_code".
Proof.
  apply (login_round_trip Samples.lib Samples.rt_login Samples.returning
           "verifier-1" "code-1" "https://api.example.com/oauth/token"
           Start.verifier_cookie_options).
  - left. reflexivity.
  - reflexivity.
  - discriminate.
  - reflexivity.
  - discriminate.
  - reflexivity.
  - discriminate.
Defined.

Lemma guardB_null_cookie_instance :
  guardB Runs.rt_valid (Demo.dashboard JNull)
  = ([CookieRead "oauth_data"], Uncaught "TypeError").
Proof.
  apply (guardB_null_cookie_throws Runs.rt_valid (Demo.dashboard JNull)).
  - reflexivity.
  - apply carries_demo; [reflexivity|discriminate].
Defined.

Lemma middlewareB_never_forbidden_instance :
  kind NextResponse_next = Next
  \/ kind NextResponse_next
     = Redirect (origin Runs.with_bundle ++ "/auth/login").
Proof.
  apply (middlewareB_never_forbidden Runs.rt_valid Runs.with_bundle
           NextResponse_next).
  reflexivity.
Defined.

Lemma callback_cookie_instance :
  exists rest,
    trace (guardA Samples.rt_login Runs.with_bundle)
    = CookieRead "oauth_data"
      :: HttpGet (validation_url Samples.rt_login)
           [("Authorization",
             "Bearer "
             ++ js_String (optional_member (Demo.bundle 3600) "access_token"));
            ("Accept", "application/json")]
           (validation_outcome Samples.rt_login (Demo.bundle 3600))
      :: rest.
Proof.
  eapply (callback_cookie_is_validated Samples.rt_login Samples.returning
            Runs.with_bundle _ _ _ (Demo.bundle 3600)
            (Demo.stringify (Demo.bundle 3600)) Callback.oauth_cookie_options).
  - right. left. reflexivity.
  - left. reflexivity.
  - reflexivity.
  - reflexivity.
  - discriminate.
  - reflexivity.
  - reflexivity.
Defined.

Lemma refreshed_cookie_instance :
  exists rest,
    trace (guardA (Runs.rt_expired 3600) Runs.with_bundle)
    = CookieRead "oauth_data"
      :: HttpGet (validation_url (Runs.rt_expired 3600))
           [("Authorization",
             "Bearer "
             ++ js_String (optional_member (Demo.bundle 3600) "access_token"));
            ("Accept", "application/json")]
           (validation_outcome (Runs.rt_expired 3600) (Demo.bundle 3600))
      :: rest.
Proof.
  eapply (refreshed_cookie_is_validated (Runs.rt_expired 3600)
            Runs.with_bundle Runs.with_bundle _ _ _ (Demo.bundle 3600)
            (Demo.stringify (Demo.bundle 3600))
            (refreshed_cookie_options (Runs.rt_expired 3600)
               (Some (JNum 3600)))).
  - right. right. left. reflexivity.
  - left. reflexivity.
  - reflexivity.
  - reflexivity.
  - discriminate.
  - reflexivity.
  - reflexivity.
Defined.

(** ** Unprotected paths *)



